(** * CurriculumGen: the chat / upload handlers and the table extractor of app.py

    Shallow embedding of [src/app.py].

    - Text is a [string]; its characters are the code points 0..255, and on
      that range whitespace and lower-casing follow Python's [str] methods.
    - The module-level list [conversation_history], the files on disk and a
      ghost trace of the calls made to collaborators form the [World] that
      every handler threads through; an exception leaves the world as it was
      when it was raised (Python does not roll mutations back).
    - The collaborators that app.py only calls (the Gemini chat session, the
      connectivity probe, PyPDF2 / python-docx, werkzeug's secure_filename,
      the working directory) are the fields of an [Env]: every statement
      quantifies over them.
    - A request body is a JSON object; [file.save] and [os.makedirs] succeed
      on a path that is free, [os.remove] on a file that exists.
    - Handler invocations run one after the other; interleaved requests are
      outside this model. *)

From Stdlib Require Import Ascii String.
From stdpp Require Import gmap strings list.

Local Open Scope stdpp_scope.

(** ** Python [str] operations used by app.py *)

Module Str.

Definition LF : ascii := "010"%char.
Definition nl : string := String LF "".

Definition code (c : ascii) : nat := nat_of_ascii c.

(** [str.isspace] on one character: TAB..CR, FS..US, SPACE, NEL, NBSP. *)
Definition is_space (c : ascii) : bool :=
  let n := code c in
  ((9 <=? n) && (n <=? 13)) || ((28 <=? n) && (n <=? 32))
  || (n =? 133) || (n =? 160).

(** [str.lower] on one character: A..Z, and the Latin-1 capitals
    U+00C0..U+00DE except the multiplication sign U+00D7. *)
Definition lower_char (c : ascii) : ascii :=
  let n := code c in
  if ((65 <=? n) && (n <=? 90))
     || ((192 <=? n) && (n <=? 222) && negb (n =? 215))
  then ascii_of_nat (n + 32) else c.

Fixpoint lower (s : string) : string :=
  match s with
  | "" => ""
  | String c s' => String (lower_char c) (lower s')
  end.

Fixpoint lstrip (s : string) : string :=
  match s with
  | "" => ""
  | String c s' => if is_space c then lstrip s' else s
  end.

Fixpoint rstrip (s : string) : string :=
  match s with
  | "" => ""
  | String c s' =>
      match rstrip s' with
      | "" => if is_space c then "" else String c ""
      | r => String c r
      end
  end.

(** [s.strip()] *)
Definition strip (s : string) : string := rstrip (lstrip s).

(** [s.startswith(p)] *)
Fixpoint startswith (p s : string) : bool :=
  match p, s with
  | "", _ => true
  | String _ _, "" => false
  | String a p', String b s' => Ascii.eqb a b && startswith p' s'
  end.

(** [p in s] *)
Fixpoint contains (p s : string) : bool :=
  startswith p s
  || match s with
     | "" => false
     | String _ s' => contains p s'
     end.

(** [s.endswith(suf)] *)
Fixpoint endswith (suf s : string) : bool :=
  String.eqb s suf
  || match s with
     | "" => false
     | String _ s' => endswith suf s'
     end.

(** [s.split(sep)] for a one-character separator: never empty. *)
Fixpoint split (sep : ascii) (s : string) : list string :=
  match s with
  | "" => [""]
  | String c s' =>
      if Ascii.eqb c sep then "" :: split sep s'
      else match split sep s' with
           | w :: ws => String c w :: ws
           | [] => [String c ""]
           end
  end.

(** The cut at the last occurrence of [sep], if there is one. *)
Fixpoint rcut (sep : ascii) (s : string) : option (string * string) :=
  match s with
  | "" => None
  | String c s' =>
      match rcut sep s' with
      | Some (h, t) => Some (String c h, t)
      | None => if Ascii.eqb c sep then Some ("", s') else None
      end
  end.

(** [s.rsplit(sep, 1)] for a one-character separator. *)
Definition rsplit1 (sep : ascii) (s : string) : list string :=
  match rcut sep s with
  | Some (h, t) => [h; t]
  | None => [s]
  end.

(** What the tests above decide. *)
Definition Substring (p s : string) : Prop :=
  exists pre post, s = pre +:+ p +:+ post.

Definition Suffix (suf s : string) : Prop :=
  exists pre, s = pre +:+ suf.

End Str.

(** ** Exceptions and results *)

Inductive exn : Type :=
| ValueError (msg : string)
| AttributeError (msg : string)
| OSError (msg : string)
| ExternalError (msg : string).

(** [str(e)] *)
Definition str_exn (e : exn) : string :=
  match e with
  | ValueError m | AttributeError m | OSError m | ExternalError m => m
  end.

Inductive result (A : Type) : Type :=
| Ok (a : A)
| Raise (e : exn).
Arguments Ok {A} a.
Arguments Raise {A} e.

(** ** The table extractor (app.py, lines 67-86) *)

Record Table : Type := mkTable {
  headers : list string;
  rows : list (list string)
}.

Definition NoTableDetected : exn :=
  ValueError "No table detected in the response.".

(** The test of line 74. *)
Definition is_table_line (line : string) : bool :=
  Str.contains "|" line
  && negb (Str.contains "customize" (Str.lower line))
  && negb (Str.contains "spreadsheet" (Str.lower line)).

(** The loop of lines 70-75: [table_lines] grows by [append]. *)
Fixpoint collect_table_lines (lines table_lines : list string) : list string :=
  match lines with
  | [] => table_lines
  | line :: rest =>
      if is_table_line line
      then collect_table_lines rest (table_lines ++ [line])
      else collect_table_lines rest table_lines
  end.

Definition split_cells (line : string) : list string :=
  map Str.strip (Str.split "|"%char line).

(** line 69 *)
Definition lines_of (response_text : string) : list string :=
  Str.split Str.LF (Str.strip response_text).

(** lines 70-75 *)
Definition table_lines_of (response_text : string) : list string :=
  collect_table_lines (lines_of response_text) [].

(** lines 77-86 *)
Definition table_of_lines (table_lines : list string) : result Table :=
  match table_lines with
  | [] => Raise NoTableDetected
  | first :: others =>
      Ok {| headers := split_cells first;
            rows := map split_cells others |}
  end.

Definition extract_table (response_text : string) : result Table :=
  table_of_lines (table_lines_of response_text).

(** ** The world the handlers run in *)

Inductive Role : Type := user | model.

(** One entry of [conversation_history]: a dict with keys "role" and "parts". *)
Record Turn : Type := mkTurn {
  role : Role;
  parts : list string
}.

(** Ghost trace: the calls a handler makes to the Model Gateway, to the
    Text Extractor and to [extract_table], in the order they happen. *)
Inductive event : Type :=
| CallGateway (history : list Turn) (message : string)
| CallTextExtractor (file_path : string)
| CallExtractTable (response_text : string).

Record World : Type := mkWorld {
  conversation_history : list Turn;
  files : gset string;
  dirs : gset string;
  trace : list event
}.

(** What the collaborators answer during one handler invocation. *)
Record Env : Type := mkEnv {
  (** [socket.create_connection(("8.8.8.8", 53))] *)
  create_connection : result unit;
  (** [model.start_chat(history=h).send_message(m)] followed by [.text];
      the session works on its own copy of [h] *)
  send_message : list Turn -> string -> result string;
  (** the page texts PyPDF2 reads from a path *)
  pdf_pages : string -> result (list string);
  (** the paragraph texts python-docx reads from a path *)
  docx_paragraphs : string -> result (list string);
  (** [werkzeug.utils.secure_filename] *)
  secure_filename : string -> string;
  (** [os.getcwd()] *)
  getcwd : string
}.

(** State and exceptions: a raised exception keeps the world reached so far. *)
Definition M (A : Type) : Type := World -> result A * World.

Definition ret {A} (a : A) : M A := fun w => (Ok a, w).
Definition raise {A} (e : exn) : M A := fun w => (Raise e, w).
Definition bind {A B} (m : M A) (k : A -> M B) : M B :=
  fun w => match m w with
           | (Ok a, w') => k a w'
           | (Raise e, w') => (Raise e, w')
           end.
(** [try: body  except Exception as e: handler e] *)
Definition try_except {A} (body : M A) (handler : exn -> M A) : M A :=
  fun w => match body w with
           | (Ok a, w') => (Ok a, w')
           | (Raise e, w') => handler e w'
           end.
Definition lift {A} (r : result A) : M A := fun w => (r, w).

Notation "x <- m ;; k" := (bind m (fun x => k))
  (at level 20, m at level 99, k at level 200, only parsing).
Notation "m ;; k" := (bind m (fun _ => k))
  (at level 100, k at level 200, right associativity, only parsing).

(** [conversation_history.append(t)] *)
Definition history_append (t : Turn) : M unit := fun w =>
  (Ok tt, mkWorld (conversation_history w ++ [t]) (files w) (dirs w) (trace w)).
(** reading the global: the list as it is now *)
Definition history_snapshot : M (list Turn) := fun w =>
  (Ok (conversation_history w), w).
Definition log (ev : event) : M unit := fun w =>
  (Ok tt, mkWorld (conversation_history w) (files w) (dirs w) (trace w ++ [ev])).

(** [os.path.exists(p)] *)
Definition path_exists (p : string) : M bool := fun w =>
  (Ok (bool_decide (p ∈ files w) || bool_decide (p ∈ dirs w)), w).
(** [os.makedirs(p)] *)
Definition makedirs (p : string) : M unit := fun w =>
  if bool_decide (p ∈ files w) || bool_decide (p ∈ dirs w)
  then (Raise (OSError "File exists"), w)
  else (Ok tt, mkWorld (conversation_history w) (files w) ({[p]} ∪ dirs w) (trace w)).
(** [file.save(p)] *)
Definition save (p : string) : M unit := fun w =>
  (Ok tt, mkWorld (conversation_history w) ({[p]} ∪ files w) (dirs w) (trace w)).
(** [os.remove(p)] *)
Definition remove (p : string) : M unit := fun w =>
  if bool_decide (p ∈ files w)
  then (Ok tt, mkWorld (conversation_history w) (files w ∖ {[p]}) (dirs w) (trace w))
  else (Raise (OSError "No such file or directory"), w).

(** [os.path.join(a, b)] (posixpath) *)
Definition path_join (a b : string) : string :=
  if Str.startswith "/" b then b
  else if String.eqb a "" || Str.endswith "/" a then a +:+ b
  else a +:+ "/" +:+ b.
Arguments path_join : simpl never.

(** ** Helpers of app.py *)

Definition ALLOWED_EXTENSIONS : gset string := {[ "pdf"; "docx" ]}.

(** lines 58-64 *)
Definition net_check (E : Env) : M bool :=
  match create_connection E with
  | Ok _ => ret true
  | Raise (OSError _) => ret false
  | Raise e => raise e
  end.

(** lines 89-90; the index [1] exists whenever the first test passed *)
Definition allowed_file (filename : string) : bool :=
  Str.contains "." filename
  && match Str.rsplit1 "."%char filename !! 1%nat with
     | Some ext => bool_decide (Str.lower ext ∈ ALLOWED_EXTENSIONS)
     | None => false
     end.

(** lines 93-99: [text += page.extract_text()] over the pages *)
Definition extract_pdf_text (E : Env) (file_path : string) : M string :=
  log (CallTextExtractor file_path) ;;
  pages <- lift (pdf_pages E file_path) ;;
  ret (fold_left String.append pages "").

(** lines 102-104 *)
Definition extract_docx_text (E : Env) (file_path : string) : M string :=
  log (CallTextExtractor file_path) ;;
  paragraphs <- lift (docx_paragraphs E file_path) ;;
  ret (String.concat Str.nl paragraphs).

(** [chat_session = model.start_chat(history=conversation_history)];
    [response = chat_session.send_message(msg)]; [response.text] *)
Definition ask_model (E : Env) (message : string) : M string :=
  history <- history_snapshot ;;
  log (CallGateway history message) ;;
  lift (send_message E history message).

(** ** The handlers *)

(** A JSON value of the request body, as far as [chat] tells them apart. *)
Inductive json : Type :=
| JString (s : string)
| JNumber (n : Z)
| JBool (b : bool)
| JNull.

(** The dict given to [jsonify]. *)
Record Payload : Type := mkPayload {
  response : string;
  table : option Table
}.

Definition plain (text : string) : Payload := mkPayload text None.

(** [data.get("user_input", "").strip()] *)
Definition get_user_input (data : gmap string json) : M string :=
  match default (JString "") (data !! "user_input") with
  | JString s => ret (Str.strip s)
  | _ => raise (AttributeError "object has no attribute 'strip'")
  end.

(** The test of lines 142-146. *)
Definition wants_table (user_input response_text : string) : bool :=
  Str.contains "timetable" (Str.lower user_input)
  || Str.contains "table form" (Str.lower user_input)
  || Str.contains "tabular" (Str.lower response_text).

(** lines 116-158 *)
Definition chat (E : Env) (data : gmap string json) : M Payload :=
  user_input <- get_user_input data ;;
  if String.eqb user_input "" then
    ret (plain "Input cannot be empty.")
  else
    up <- net_check E ;;
    if negb up then
      ret (plain "Network error. Please check your connection.")
    else
      try_except
        (history_append (mkTurn user [user_input +:+ Str.nl]) ;;
         text <- ask_model E user_input ;;
         let response_text := Str.strip text in
         history_append (mkTurn model [response_text +:+ Str.nl]) ;;
         if wants_table user_input response_text then
           try_except
             (log (CallExtractTable response_text) ;;
              table_data <- lift (extract_table response_text) ;;
              ret (mkPayload response_text (Some table_data)))
             (fun _ => ret (plain response_text))
         else
           ret (plain response_text))
        (fun e => ret (plain ("Error: " +:+ str_exn e))).

(** A werkzeug [FileStorage]; it is truthy when its filename is non-empty. *)
Record FileStorage : Type := mkFile {
  filename : string;
  stream : string
}.

Definition truthy (file : FileStorage) : bool :=
  negb (String.eqb (filename file) "").

(** lines 193-200: what [upload_file] does with the extracted text *)
Definition send_file_content (E : Env) (file_content : string) : M Payload :=
  history_append (mkTurn user [file_content +:+ Str.nl]) ;;
  text <- ask_model E file_content ;;
  let response_text := Str.strip text in
  history_append (mkTurn model [response_text +:+ Str.nl]) ;;
  ret (plain response_text).

(** lines 162-204 *)
Definition upload_file (E : Env) (request_files : gmap string FileStorage)
  : M Payload :=
  match request_files !! "file" with
  | None => ret (plain "No file part in the request.")
  | Some file =>
      if String.eqb (filename file) "" then
        ret (plain "No file selected.")
      else if truthy file && allowed_file (filename file) then
        let upload_folder := path_join (getcwd E) "uploads" in
        there <- path_exists upload_folder ;;
        (if negb there then makedirs upload_folder else ret tt) ;;
        let filename := secure_filename E (filename file) in
        let file_path := path_join upload_folder filename in
        save file_path ;;
        try_except
          (if Str.endswith ".pdf" filename then
             file_content <- extract_pdf_text E file_path ;;
             remove file_path ;;
             send_file_content E file_content
           else if Str.endswith ".docx" filename then
             file_content <- extract_docx_text E file_path ;;
             remove file_path ;;
             send_file_content E file_content
           else
             ret (plain "Unsupported file format."))
          (fun e => ret (plain ("Error processing file: " +:+ str_exn e)))
      else
        ret (plain "Invalid file type. Only PDF and DOCX are allowed.")
  end.

(** ** The server as a state machine *)

Inductive Request : Type :=
| GetIndex
| PostChat (data : gmap string json)
| PostUpload (request_files : gmap string FileStorage).

Inductive Reply : Type :=
| Page (template : string)
| Json (payload : Payload).

(** lines 107-112 *)
Definition index : M Reply := ret (Page "index.html").

Definition handle (E : Env) (req : Request) : M Reply :=
  match req with
  | GetIndex => index
  | PostChat data => p <- chat E data ;; ret (Json p)
  | PostUpload request_files => p <- upload_file E request_files ;; ret (Json p)
  end.

(** The world after a handler invocation has completed, whether it answered
    or let an exception through to the framework. *)
Definition after (E : Env) (req : Request) (w : World) : World :=
  snd (handle E req w).

(** Requests served one after the other. *)
Fixpoint serve (reqs : list (Env * Request)) (w : World) : World :=
  match reqs with
  | [] => w
  | (E, req) :: rest => serve rest (after E req w)
  end.

(** The state of a freshly started process. *)
Definition boot : World := mkWorld [] ∅ ∅ [].

(** ** Vocabulary of the properties *)

(** A line the extractor is meant to keep: it has the delimiter, and its
    lower-cased content has neither noise word. *)
Definition Retained (line : string) : Prop :=
  Str.Substring "|" line
  /\ ~ Str.Substring "customize" (Str.lower line)
  /\ ~ Str.Substring "spreadsheet" (Str.lower line).

(** [Selected P ls ks]: [ks] keeps, in order, exactly the entries of [ls]
    that satisfy [P]. *)
Inductive Selected {A : Type} (P : A -> Prop) : list A -> list A -> Prop :=
| Selected_nil : Selected P [] []
| Selected_keep x ls ks : P x -> Selected P ls ks -> Selected P (x :: ls) (x :: ks)
| Selected_drop x ls ks : ~ P x -> Selected P ls ks -> Selected P (x :: ls) ks.

(** The cells of the lines that pass the test of line 74. *)
Definition cells_of_lines (lines : list string) : list (list string) :=
  map split_cells (List.filter is_table_line lines).

(** Case-insensitive occurrence of a lower-case keyword. *)
Definition Mentions (keyword s : string) : Prop :=
  exists k, Str.lower k = keyword /\ Str.Substring k s.

(** The first character is not whitespace. *)
Definition starts_solid (k : string) : bool :=
  match k with
  | "" => false
  | String c _ => negb (Str.is_space c)
  end.

(** The last character is not whitespace. *)
Fixpoint ends_solid (k : string) : bool :=
  match k with
  | "" => false
  | String c "" => negb (Str.is_space c)
  | String _ k' => ends_solid k'
  end.

(** The trigger of the table extraction, on the user's input and the
    model's response. *)
Definition Triggered (user_input response_text : string) : Prop :=
  Mentions "timetable" user_input
  \/ Mentions "table form" user_input
  \/ Mentions "tabular" response_text.

(** Empty, or nothing but whitespace. *)
Definition Blank (s : string) : Prop :=
  Forall (fun c => Str.is_space c = true) (list_ascii_of_string s).

Definition other (r : Role) : Role :=
  match r with user => model | model => user end.

Definition Role_eqb (a b : Role) : bool :=
  match a, b with
  | user, user | model, model => true
  | _, _ => false
  end.

(** The turns take the roles [expected], [other expected], ... in turn. *)
Fixpoint alternates (expected : Role) (h : list Turn) : bool :=
  match h with
  | [] => true
  | t :: h' => Role_eqb (role t) expected && alternates (other expected) h'
  end.

(** Strict alternation that starts with a user turn. *)
Definition Alternating (h : list Turn) : Prop := alternates user h = true.

(** Every model turn comes directly after a user turn ([prev] is the role
    of the turn before [h], if any). *)
Fixpoint replies_follow (prev : option Role) (h : list Turn) : bool :=
  match h with
  | [] => true
  | t :: h' =>
      match role t, prev with
      | user, _ => replies_follow (Some user) h'
      | model, Some user => replies_follow (Some model) h'
      | model, _ => false
      end
  end.

(** What one handler invocation may add to the store. *)
Inductive Appended : list Turn -> Prop :=
| Appended_nothing : Appended []
| Appended_user u : role u = user -> Appended [u]
| Appended_exchange u m : role u = user -> role m = model -> Appended [u; m].

(** What one handler invocation adds when the gateway answers. *)
Inductive Exchanged : list Turn -> Prop :=
| Exchanged_nothing : Exchanged []
| Exchanged_exchange u m : role u = user -> role m = model -> Exchanged [u; m].

(** Each user turn has its reply: the store has an even number of turns. *)
Definition Paired (h : list Turn) : Prop := Nat.even (length h) = true.

(** The gateway answers every call of these requests. *)
Definition GatewayAnswers (reqs : list (Env * Request)) : Prop :=
  Forall (fun er => forall h m, exists text, send_message (fst er) h m = Ok text) reqs.

(** The world a chat turn leaves when the gateway has answered. *)
Definition chat_world (w : World) (u r : string) (evs : list event) : World :=
  mkWorld (conversation_history w
             ++ [mkTurn user [u +:+ Str.nl]; mkTurn model [r +:+ Str.nl]])
          (files w) (dirs w) (trace w ++ evs).

(** Sample collaborators: the probe's outcome, the gateway's answer to every
    call and the extractor's reading of every path are given. The samples
    use file names made of letters, digits and dots, which werkzeug's
    [secure_filename] returns as they are. *)
Definition sample_env (probe : result unit) (answer : result string)
    (reading : result (list string)) : Env :=
  mkEnv probe (fun _ _ => answer) (fun _ => reading) (fun _ => reading)
    (fun name => name) "/srv/app".

Definition chat_body (s : string) : gmap string json :=
  {[ "user_input" := JString s ]}.

Definition upload_of (name : string) : gmap string FileStorage :=
  {[ "file" := mkFile name "%PDF-1.4" ]}.

(** A process that has served one chat turn. *)
Definition one_turn_in : World :=
  mkWorld [mkTurn user ["Hi" +:+ Str.nl]; mkTurn model ["Hello." +:+ Str.nl]]
    ∅ ∅ [].

(** A cell as [extract_table] returns it: trimmed, and free of the
    delimiter and of line breaks. *)
Definition Tidy (cell : string) : Prop :=
  Str.strip cell = cell
  /\ ~ Str.Substring "|" cell
  /\ ~ Str.Substring Str.nl cell.

(** A pipe table as text: the cells of a row joined by " | ", the rows
    joined by line breaks. *)
Definition render_row (cells : list string) : string :=
  String.concat " | " cells.

Definition render_table (table_rows : list (list string)) : string :=
  String.concat Str.nl (map render_row table_rows).

(** A row whose text the extractor retains: at least two tidy cells, and no
    noise word in the joined text. *)
Definition Renderable (cells : list string) : Prop :=
  2 <= length cells
  /\ Forall Tidy cells
  /\ ~ Mentions "customize" (render_row cells)
  /\ ~ Mentions "spreadsheet" (render_row cells).

Definition is_gateway_call (ev : event) : bool :=
  match ev with CallGateway _ _ => true | _ => false end.

Definition is_extract_table_call (ev : event) : bool :=
  match ev with CallExtractTable _ => true | _ => false end.

Definition is_user_turn (t : Turn) : bool := Role_eqb (role t) user.

(** Where [upload_file] saves a file named [name]. *)
Definition scratch_path (E : Env) (name : string) : string :=
  path_join (path_join (getcwd E) "uploads") (secure_filename E name).

Definition user_turns (h : list Turn) : nat :=
  length (List.filter is_user_turn h).

Definition model_turns (h : list Turn) : nat :=
  length (List.filter (fun t => Role_eqb (role t) model) h).

Definition gateway_calls (evs : list event) : nat :=
  length (List.filter is_gateway_call evs).

(** Settles a closed decidable statement, or its negation, by evaluation. *)
Ltac by_evaluation :=
  match goal with
  | |- ~ ?P => apply (bool_decide_eq_false_1 P); by vm_compute
  | |- ?P => apply (bool_decide_unpack P); by vm_compute
  end.

(** Unfolds a handler down to the operations on the world. *)
Ltac run_handler :=
  unfold chat, upload_file, send_file_content, ask_model, get_user_input,
    extract_pdf_text, extract_docx_text, net_check, try_except, bind, ret,
    raise, lift, history_append, history_snapshot, log, path_exists, makedirs,
    save, remove, plain; cbn.

(** * Facts *)

(** ** Strings *)

Section StrFacts.
Import Str.

Lemma sapp_cons c s t : String c s +:+ t = String c (s +:+ t).
Proof. reflexivity. Qed.

Lemma sapp_nil_l s : "" +:+ s = s.
Proof. reflexivity. Qed.

Lemma sapp_nil_r s : s +:+ "" = s.
Proof. induction s as [|c s IH]; [reflexivity|]. rewrite sapp_cons. by f_equal. Qed.

Lemma sapp_assoc s t u : (s +:+ t) +:+ u = s +:+ t +:+ u.
Proof.
  induction s as [|c s IH]; [reflexivity|].
  rewrite !sapp_cons. by f_equal.
Qed.

Lemma startswith_spec p s :
  startswith p s = true <-> exists post, s = p +:+ post.
Proof.
  revert s. induction p as [|a p IH]; intros s; simpl.
  - split; [intros _; by exists s | done].
  - destruct s as [|b s].
    + split; [done | intros [post Hpost]; discriminate].
    + rewrite andb_true_iff, IH, Ascii.eqb_eq. split.
      * intros [-> [post ->]]. by exists post.
      * intros [post Hpost]. rewrite sapp_cons in Hpost.
        injection Hpost as -> ->. eauto.
Qed.

Lemma contains_spec p s : contains p s = true <-> Substring p s.
Proof.
  unfold Substring. induction s as [|c s IH].
  - simpl. rewrite orb_false_r, startswith_spec. split.
    + intros [post Hpost]. by exists "", post.
    + intros [[|a pre] [post Hpost]]; [by exists post|].
      rewrite sapp_cons in Hpost. discriminate.
  - cbn [contains]. rewrite orb_true_iff, startswith_spec, IH. split.
    + intros [[post Hpost] | (pre & post & ->)].
      * by exists "", post.
      * by exists (String c pre), post.
    + intros [[|a pre] [post Hpost]].
      * left. by exists post.
      * right. rewrite sapp_cons in Hpost. injection Hpost as -> ->. eauto.
Qed.

Lemma contains_false p s : contains p s = false <-> ~ Substring p s.
Proof. rewrite <- contains_spec. by destruct (contains p s). Qed.

Lemma endswith_spec suf s : endswith suf s = true <-> Suffix suf s.
Proof.
  unfold Suffix. induction s as [|c s IH].
  - cbn [endswith]. rewrite orb_false_r, String.eqb_eq. split.
    + intros <-. by exists "".
    + intros [[|a pre] Hpre]; [done|]. rewrite sapp_cons in Hpre. discriminate.
  - cbn [endswith]. rewrite orb_true_iff, String.eqb_eq, IH. split.
    + intros [<- | [pre ->]]; [by exists "" | by exists (String c pre)].
    + intros [[|a pre] Hpre]; [by left|].
      right. rewrite sapp_cons in Hpre. injection Hpre as -> ->. eauto.
Qed.

Lemma Substring_refl s : Substring s s.
Proof. exists "", "". by rewrite sapp_nil_l, sapp_nil_r. Qed.

Lemma Substring_trans p s t : Substring p s -> Substring s t -> Substring p t.
Proof.
  intros (a & b & ->) (c & d & ->).
  exists (c +:+ a), (b +:+ d). by rewrite !sapp_assoc.
Qed.

Lemma Substring_cons p c s : Substring p s -> Substring p (String c s).
Proof. intros (a & b & ->). by exists (String c a), b. Qed.

Example split_demo : split "|"%char "a|b||" = ["a"; "b"; ""; ""].
Proof. reflexivity. Qed.

Example split_no_separator_demo : split LF "" = [""].
Proof. reflexivity. Qed.

Example strip_demo : strip ("  a b " +:+ nl) = "a b".
Proof. reflexivity. Qed.

Example rsplit1_demo :
  rsplit1 "."%char "a.b.c" = ["a.b"; "c"] /\ rsplit1 "."%char "abc" = ["abc"].
Proof. split; reflexivity. Qed.

Example lower_demo : lower "Time-Table 1" = "time-table 1".
Proof. reflexivity. Qed.

Example path_join_demo :
  path_join "/srv/app" "uploads" = "/srv/app/uploads"
  /\ path_join "/srv/app/" "uploads" = "/srv/app/uploads"
  /\ path_join "/srv/app" "/etc" = "/etc".
Proof. repeat split; reflexivity. Qed.

Lemma lower_app s t : lower (s +:+ t) = lower s +:+ lower t.
Proof.
  induction s as [|c s IH]; [reflexivity|].
  rewrite sapp_cons. cbn [lower]. rewrite sapp_cons. by f_equal.
Qed.

Lemma lower_app_inv s x y :
  lower s = x +:+ y ->
  exists s1 s2, s = s1 +:+ s2 /\ lower s1 = x /\ lower s2 = y.
Proof.
  revert s. induction x as [|a x IH]; intros s Hs.
  - by exists "", s.
  - destruct s as [|c s]; [discriminate|].
    cbn [lower] in Hs. rewrite sapp_cons in Hs. injection Hs as Ha Hs.
    destruct (IH s Hs) as (s1 & s2 & -> & <- & <-).
    exists (String c s1), s2. rewrite <- Ha. by rewrite sapp_cons.
Qed.

(** The lower-cased text holds the keyword exactly when the text holds
    the keyword in some mix of cases. *)
Lemma contains_lower_spec keyword s :
  contains keyword (lower s) = true <-> Mentions keyword s.
Proof.
  rewrite contains_spec. unfold Mentions, Substring. split.
  - intros (pre & post & Hs).
    apply lower_app_inv in Hs as (s1 & s2 & -> & <- & Hs).
    apply lower_app_inv in Hs as (k & s3 & -> & <- & <-).
    exists k. split; [done|]. by exists s1, s3.
  - intros (k & <- & pre & post & ->).
    exists (lower pre), (lower post). by rewrite !lower_app.
Qed.

Lemma lstrip_spec s : exists pre, s = pre +:+ lstrip s /\ Blank pre.
Proof.
  induction s as [|c s (pre & Hs & Hpre)].
  - exists "". split; [done | constructor].
  - cbn [lstrip]. destruct (is_space c) eqn:Hc.
    + exists (String c pre). split.
      * rewrite sapp_cons. by f_equal.
      * by constructor.
    + exists "". split; [done | constructor].
Qed.

Lemma rstrip_spec s : exists post, s = rstrip s +:+ post /\ Blank post.
Proof.
  induction s as [|c s (post & Hs & Hpost)].
  - exists "". split; [done | constructor].
  - cbn [rstrip]. destruct (rstrip s) as [|d r] eqn:Hr.
    + destruct (is_space c) eqn:Hc.
      * exists (String c post). split.
        -- rewrite sapp_nil_l in *. by f_equal.
        -- by constructor.
      * exists post. split; [|done].
        rewrite sapp_cons. by f_equal.
    + exists post. split; [|done].
      rewrite sapp_cons. by f_equal.
Qed.

(** [strip] cuts a blank prefix and a blank suffix off. *)
Lemma strip_spec s :
  exists pre post, s = pre +:+ strip s +:+ post /\ Blank pre /\ Blank post.
Proof.
  destruct (lstrip_spec s) as (pre & Hs & Hpre).
  destruct (rstrip_spec (lstrip s)) as (post & Hl & Hpost).
  exists pre, post. split; [|done].
  unfold strip. by rewrite <- Hl.
Qed.

Lemma strip_Substring s : Substring (strip s) s.
Proof. destruct (strip_spec s) as (pre & post & Hs & _). by exists pre, post. Qed.

Lemma Blank_app s t : Blank (s +:+ t) <-> Blank s /\ Blank t.
Proof.
  unfold Blank. induction s as [|c s IH].
  - rewrite sapp_nil_l. split; [intros H; split; [constructor | done] | by intros [_ H]].
  - rewrite sapp_cons. cbn [list_ascii_of_string].
    rewrite !Forall_cons, IH. tauto.
Qed.

Lemma lstrip_Blank s : Blank s -> lstrip s = "".
Proof.
  unfold Blank. induction s as [|c s IH]; [done|].
  cbn [list_ascii_of_string lstrip]. rewrite Forall_cons.
  intros [-> Hs]. auto.
Qed.

Lemma rstrip_empty s : rstrip s = "" -> Blank s.
Proof.
  unfold Blank. induction s as [|c s IH]; [constructor|].
  cbn [rstrip list_ascii_of_string].
  destruct (rstrip s) eqn:Hr; [|done].
  destruct (is_space c) eqn:Hc; [|done].
  intros _. constructor; auto.
Qed.

(** Trimming leaves nothing exactly for the blank texts. *)
Lemma strip_empty_iff s : strip s = "" <-> Blank s.
Proof.
  split.
  - intros H. destruct (strip_spec s) as (pre & post & Hs & Hpre & Hpost).
    rewrite H, sapp_nil_l in Hs. rewrite Hs. by apply Blank_app.
  - intros H. unfold strip. by rewrite lstrip_Blank.
Qed.

Lemma split_cons sep s : exists w ws, split sep s = w :: ws.
Proof.
  destruct s as [|c s]; cbn [split]; [eauto|].
  destruct (Ascii.eqb c sep); [eauto|].
  destruct (split sep s); eauto.
Qed.

Lemma split_head sep s w ws :
  split sep s = w :: ws -> exists post, s = w +:+ post.
Proof.
  revert w ws. induction s as [|c s IH]; intros w ws; cbn [split].
  - intros [= <- <-]. by exists "".
  - destruct (Ascii.eqb c sep).
    + intros [= <- <-]. by exists (String c s).
    + destruct (split sep s) as [|v vs] eqn:Hv.
      * intros [= <- <-]. destruct (split_cons sep s) as (? & ? & ?). congruence.
      * intros [= <- <-]. destruct (IH v vs eq_refl) as [post ->].
        by exists post.
Qed.

(** Every piece of a split is a piece of the text. *)
Lemma split_Substring sep s w : w ∈ split sep s -> Substring w s.
Proof.
  revert w. induction s as [|c s IH]; intros w; cbn [split].
  - intros ->%list_elem_of_singleton. apply Substring_refl.
  - destruct (Ascii.eqb c sep).
    + intros [->|Hw]%elem_of_cons.
      * by exists "", (String c s).
      * by apply Substring_cons, IH.
    + destruct (split sep s) as [|v vs] eqn:Hv.
      * intros ->%list_elem_of_singleton.
        destruct (split_cons sep s) as (? & ? & ?). congruence.
      * intros [->|Hw]%elem_of_cons.
        -- destruct (split_head sep s v vs Hv) as [post ->].
           by exists "", post.
        -- apply Substring_cons, IH. by right.
Qed.

(** Joining the pieces with the separator gives the text back. *)
Lemma concat_split sep s : String.concat (String sep "") (split sep s) = s.
Proof.
  induction s as [|c s IH]; [reflexivity|]. cbn [split].
  destruct (Ascii.eqb_spec c sep) as [->|Hne].
  - destruct (split_cons sep s) as (w & ws & Hw). rewrite Hw in *.
    cbn [String.concat]. change (String.append "" ?x) with x.
    rewrite sapp_cons, sapp_nil_l. by f_equal.
  - destruct (split sep s) as [|w [|v ws]] eqn:Hw.
    + destruct (split_cons sep s) as (? & ? & ?). congruence.
    + cbn [String.concat] in *. by f_equal.
    + cbn [String.concat] in *. rewrite sapp_cons. by f_equal.
Qed.

(** No piece of a split holds the separator. *)
Lemma split_no_sep sep s w :
  w ∈ split sep s -> ~ Substring (String sep "") w.
Proof.
  revert w. induction s as [|c s IH]; intros w; cbn [split].
  - intros ->%list_elem_of_singleton (pre & post & H).
    destruct pre; discriminate.
  - destruct (Ascii.eqb_spec c sep) as [->|Hne].
    + intros [->|Hw]%elem_of_cons; [|by apply IH].
      intros (pre & post & H). destruct pre; discriminate.
    + destruct (split sep s) as [|v vs] eqn:Hv.
      * intros ->%list_elem_of_singleton (pre & post & H).
        destruct pre as [|a [|b pre]]; [injection H as -> _; done | discriminate..].
      * intros [->|Hw]%elem_of_cons; [|apply IH; by right].
        intros ([|a pre] & post & H).
        -- injection H as -> _. done.
        -- rewrite sapp_cons in H. injection H as -> ->.
           apply (IH (pre +:+ String sep "" +:+ post)); [by left|].
           by exists pre, post.
Qed.

Lemma is_space_lower_char c : is_space (lower_char c) = is_space c.
Proof. by destruct c as [[] [] [] [] [] [] [] []]. Qed.

Lemma starts_solid_lower k : starts_solid (lower k) = starts_solid k.
Proof. destruct k as [|c k]; [done|]. cbn. by rewrite is_space_lower_char. Qed.

Lemma ends_solid_lower k : ends_solid (lower k) = ends_solid k.
Proof.
  induction k as [|c [|d k] IH]; [done| |].
  - cbn. by rewrite is_space_lower_char.
  - exact IH.
Qed.

Lemma Blank_cons c s : Blank (String c s) <-> is_space c = true /\ Blank s.
Proof.
  unfold Blank. cbn [list_ascii_of_string].
  exact (Forall_cons (fun c => is_space c = true) c (list_ascii_of_string s)).
Qed.

Lemma Blank_not_solid k : Blank k -> ends_solid k = false.
Proof.
  induction k as [|c [|d k] IH]; [done| |].
  - intros [Hc _]%Blank_cons. cbn. by rewrite Hc.
  - intros [_ Hk]%Blank_cons. by apply IH.
Qed.

(** A piece that starts with ink is not touched by cutting blanks off the
    front. *)
Lemma Substring_cut_front k pre t :
  Blank pre -> starts_solid k = true ->
  Substring k (pre +:+ t) -> Substring k t.
Proof.
  intros Hpre Hk. induction pre as [|c pre IH]; [done|].
  apply Blank_cons in Hpre as [Hc Hpre].
  intros ([|a pre'] & post & H); rewrite !sapp_cons in H.
  - destruct k as [|x k]; [done|]. rewrite sapp_cons in H.
    injection H as -> _. cbn in Hk. by rewrite Hc in Hk.
  - injection H as _ H. apply IH; [done|]. by exists pre', post.
Qed.

Lemma prefix_cut_back k b m post :
  Blank post -> ends_solid k = true ->
  k +:+ b = m +:+ post -> exists b', m = k +:+ b'.
Proof.
  intros Hpost. revert m. induction k as [|x k IH]; intros m Hk H; [done|].
  destruct m as [|y m].
  - rewrite sapp_nil_l in H. rewrite <- H in Hpost.
    apply Blank_app in Hpost as [Hpost _].
    apply Blank_not_solid in Hpost. congruence.
  - rewrite !sapp_cons in H. injection H as -> H.
    destruct k as [|z k]; [by exists m|].
    destruct (IH m Hk H) as [b' ->]. by exists b'.
Qed.

(** A piece that ends with ink is not touched by cutting blanks off the
    back. *)
Lemma Substring_cut_back k m post :
  Blank post -> ends_solid k = true ->
  Substring k (m +:+ post) -> Substring k m.
Proof.
  intros Hpost Hk (a & b & H). revert m H.
  induction a as [|c a IH]; intros m H.
  - rewrite sapp_nil_l in H. symmetry in H.
    destruct (prefix_cut_back _ _ _ _ Hpost Hk H) as [b' ->].
    by exists "", b'.
  - destruct m as [|d m].
    + rewrite sapp_nil_l in H. rewrite H, sapp_cons in Hpost.
      apply Blank_cons in Hpost as [_ Hpost].
      apply Blank_app in Hpost as [_ Hpost].
      apply Blank_app in Hpost as [Hpost _].
      apply Blank_not_solid in Hpost. congruence.
    + rewrite !sapp_cons in H. injection H as -> H.
      by apply Substring_cons, IH.
Qed.

(** Trimming a text does not change which solid keywords it mentions. *)
Lemma Mentions_strip keyword s :
  starts_solid keyword = true -> ends_solid keyword = true ->
  Mentions keyword (strip s) <-> Mentions keyword s.
Proof.
  intros Hstart Hend. unfold Mentions. split; intros (k & Hk & Hsub); exists k.
  - split; [done|]. eapply Substring_trans; [done | apply strip_Substring].
  - split; [done|].
    destruct (strip_spec s) as (pre & post & Hs & Hpre & Hpost).
    rewrite Hs in Hsub. rewrite <- Hk in Hstart, Hend.
    rewrite starts_solid_lower in Hstart. rewrite ends_solid_lower in Hend.
    apply Substring_cut_front in Hsub; [|done..].
    by apply Substring_cut_back in Hsub.
Qed.

Lemma split_single sep s :
  ~ Substring (String sep "") s -> split sep s = [s].
Proof.
  induction s as [|c s IH]; intros Hno; [done|]. cbn [split].
  destruct (Ascii.eqb_spec c sep) as [->|_].
  - destruct Hno. by exists "", s.
  - rewrite IH; [done|]. intros H. by apply Hno, Substring_cons.
Qed.

(** Splitting a concatenation: the last piece of the front and the first
    piece of the back are glued. *)
Lemma split_app sep a b :
  exists init l p0 ps,
    split sep a = init ++ [l]
    /\ split sep b = p0 :: ps
    /\ split sep (a +:+ b) = init ++ [l +:+ p0] ++ ps.
Proof.
  induction a as [|c a (init & l & p0 & ps & Ha & Hb & Hab)].
  - destruct (split_cons sep b) as (p0 & ps & Hb).
    by exists [], "", p0, ps.
  - rewrite sapp_cons. cbn [split]. rewrite Ha, Hab.
    destruct (Ascii.eqb c sep).
    + by exists ("" :: init), l, p0, ps.
    + destruct init as [|i init].
      * by exists [], (String c l), p0, ps.
      * by exists (String c i :: init), l, p0, ps.
Qed.

Lemma Blank_Substring p s : Substring p s -> Blank s -> Blank p.
Proof.
  intros (a & b & ->) H.
  apply Blank_app in H as [_ H]. by apply Blank_app in H as [H _].
Qed.

Lemma Blank_no_ink k s : Blank s -> starts_solid k = true -> ~ Substring k s.
Proof.
  intros Hs Hk Hsub. apply (Blank_Substring _ _ Hsub) in Hs.
  destruct k as [|c k]; [done|].
  apply Blank_cons in Hs as [Hc _]. cbn in Hk. by rewrite Hc in Hk.
Qed.

Lemma Blank_lower s : Blank s -> Blank (lower s).
Proof.
  induction s as [|c s IH]; [done|]. cbn [lower].
  rewrite !Blank_cons, is_space_lower_char. intros [? ?]. auto.
Qed.

Lemma Blank_split sep s : Blank s -> Forall Blank (split sep s).
Proof.
  intros Hs. apply Forall_forall. intros w Hw%split_Substring.
  by apply (Blank_Substring w s).
Qed.

Lemma lstrip_app_Blank w s : Blank w -> lstrip (w +:+ s) = lstrip s.
Proof.
  induction w as [|c w IH]; [done|].
  intros [Hc Hw]%Blank_cons. rewrite sapp_cons. cbn [lstrip]. rewrite Hc. auto.
Qed.

Lemma rstrip_Blank w : Blank w -> rstrip w = "".
Proof.
  induction w as [|c w IH]; [done|].
  intros [Hc Hw]%Blank_cons. cbn [rstrip]. by rewrite IH, Hc.
Qed.

Lemma rstrip_app_Blank x w : Blank w -> rstrip (x +:+ w) = rstrip x.
Proof.
  intros Hw. induction x as [|c x IH].
  - rewrite sapp_nil_l. by apply rstrip_Blank.
  - rewrite sapp_cons. cbn [rstrip]. by rewrite IH.
Qed.

Lemma lstrip_app_ink x w : ~ Blank x -> lstrip (x +:+ w) = lstrip x +:+ w.
Proof.
  induction x as [|c x IH]; intros Hx.
  - destruct Hx. constructor.
  - rewrite sapp_cons. cbn [lstrip]. destruct (is_space c) eqn:Hc; [|done].
    apply IH. intros H. apply Hx. by apply Blank_cons.
Qed.

Lemma strip_app_Blank_l w s : Blank w -> strip (w +:+ s) = strip s.
Proof. intros Hw. unfold strip. by rewrite lstrip_app_Blank. Qed.

Lemma strip_app_Blank_r s w : Blank w -> strip (s +:+ w) = strip s.
Proof.
  intros Hw. destruct (String.eqb_spec (strip s) "") as [Hs|Hs].
  - rewrite Hs. apply strip_empty_iff, Blank_app.
    by apply strip_empty_iff in Hs.
  - rewrite strip_empty_iff in Hs. unfold strip.
    by rewrite lstrip_app_ink, rstrip_app_Blank.
Qed.

Lemma Substring_Blank_l k w s :
  Blank w -> starts_solid k = true ->
  Substring k (w +:+ s) <-> Substring k s.
Proof.
  intros Hw Hk. split; [by apply Substring_cut_front|].
  intros H. eapply Substring_trans; [done|]. exists w, "". by rewrite sapp_nil_r.
Qed.

Lemma Substring_Blank_r k s w :
  Blank w -> ends_solid k = true ->
  Substring k (s +:+ w) <-> Substring k s.
Proof.
  intros Hw Hk. split; [by apply Substring_cut_back|].
  intros H. eapply Substring_trans; [done|]. by exists "", w.
Qed.

End StrFacts.

(** ** The table extractor *)

Section ExtractorFacts.
Import Str.

Lemma Substring_lower_Mentions keyword s :
  Substring keyword (lower s) <-> Mentions keyword s.
Proof. by rewrite <- contains_spec, contains_lower_spec. Qed.

(** The test of line 74 decides [Retained]. *)
Lemma is_table_line_spec line : is_table_line line = true <-> Retained line.
Proof.
  unfold is_table_line, Retained.
  rewrite !andb_true_iff, !negb_true_iff, contains_spec, !contains_false.
  tauto.
Qed.

Lemma is_table_line_false line : is_table_line line = false <-> ~ Retained line.
Proof. rewrite <- is_table_line_spec. by destruct (is_table_line line). Qed.

Lemma Selected_functional {A} (P : A -> Prop) ls ks ks' :
  Selected P ls ks -> Selected P ls ks' -> ks = ks'.
Proof.
  intros H. revert ks'.
  induction H as [|x ls ks Hx _ IH|x ls ks Hx _ IH]; intros ks' H';
    inversion H' as [|? ? ks0 ? Hks0|? ? ? ? Hks0]; subst; try done.
  - f_equal. by apply IH.
  - by apply IH.
Qed.

Lemma Selected_elem_of {A} (P : A -> Prop) ls ks :
  Selected P ls ks -> forall x, x ∈ ks <-> x ∈ ls /\ P x.
Proof.
  induction 1 as [|y ls ks Hy _ IH|y ls ks Hy _ IH]; intros x.
  - rewrite !elem_of_nil. tauto.
  - rewrite !elem_of_cons, IH. split.
    + intros [->|[Hx HP]]; auto.
    + intros [[->|Hx] HP]; auto.
  - rewrite elem_of_cons, IH. split.
    + intros [Hx HP]; auto.
    + intros [[->|Hx] HP]; [done | auto].
Qed.

(** The loop appends to the accumulator the retained lines, in order. *)
Lemma collect_table_lines_Selected lines acc :
  exists ks, collect_table_lines lines acc = acc ++ ks
             /\ Selected Retained lines ks.
Proof.
  revert acc. induction lines as [|line rest IH]; intros acc.
  - exists []. split; [by rewrite app_nil_r | constructor].
  - cbn [collect_table_lines]. destruct (is_table_line line) eqn:Hline.
    + destruct (IH (acc ++ [line])) as (ks & -> & Hks).
      exists (line :: ks). split; [by rewrite <- app_assoc|].
      constructor; [by apply is_table_line_spec | done].
    + destruct (IH acc) as (ks & -> & Hks).
      exists ks. split; [done|].
      apply Selected_drop; [by apply is_table_line_false | done].
Qed.

Lemma table_lines_of_Selected text :
  Selected Retained (lines_of text) (table_lines_of text).
Proof.
  unfold table_lines_of.
  by destruct (collect_table_lines_Selected (lines_of text) []) as (ks & -> & Hks).
Qed.

Lemma lines_of_Substring text line : line ∈ lines_of text -> Substring line text.
Proof.
  intros H%split_Substring.
  eapply Substring_trans; [done | apply strip_Substring].
Qed.

Lemma extract_table_none_retained text :
  Selected Retained (lines_of text) [] ->
  extract_table text = Raise NoTableDetected.
Proof.
  intros H. unfold extract_table.
  by rewrite (Selected_functional _ _ _ _ (table_lines_of_Selected text) H).
Qed.

Lemma Selected_none {A} (P : A -> Prop) ls :
  (forall x, x ∈ ls -> ~ P x) -> Selected P ls [].
Proof.
  induction ls as [|x ls IH]; intros H; [constructor|].
  apply Selected_drop.
  - apply H. by left.
  - apply IH. intros y Hy. apply H. by right.
Qed.

Lemma extract_table_no_delimiter text :
  ~ Substring "|" text -> extract_table text = Raise NoTableDetected.
Proof.
  intros Hno. apply extract_table_none_retained, Selected_none.
  intros line Hline [Hbar _]. apply Hno.
  eapply Substring_trans; [done | by apply lines_of_Substring].
Qed.

(** *** The lines of the untrimmed text give the same table *)

Lemma collect_table_lines_filter lines acc :
  collect_table_lines lines acc = acc ++ List.filter is_table_line lines.
Proof.
  revert acc. induction lines as [|line rest IH]; intros acc; cbn.
  - by rewrite app_nil_r.
  - destruct (is_table_line line); rewrite IH; [by rewrite <- app_assoc | done].
Qed.

Lemma Selected_filter lines ks :
  Selected Retained lines ks <-> ks = List.filter is_table_line lines.
Proof.
  destruct (collect_table_lines_Selected lines []) as (ks' & Hks' & Hsel).
  rewrite collect_table_lines_filter in Hks'. cbn in Hks'. subst ks'.
  split; [|by intros ->].
  intros H. by apply (Selected_functional Retained lines).
Qed.

Lemma Retained_Blank_l w line : Blank w -> Retained (w +:+ line) <-> Retained line.
Proof.
  intros Hw. unfold Retained. rewrite lower_app.
  by rewrite !Substring_Blank_l by (done || by apply Blank_lower).
Qed.

Lemma Retained_Blank_r line w : Blank w -> Retained (line +:+ w) <-> Retained line.
Proof.
  intros Hw. unfold Retained. rewrite lower_app.
  by rewrite !Substring_Blank_r by (done || by apply Blank_lower).
Qed.

Lemma is_table_line_Blank_l w line :
  Blank w -> is_table_line (w +:+ line) = is_table_line line.
Proof.
  intros Hw. apply eq_true_iff_eq.
  rewrite !is_table_line_spec. by apply Retained_Blank_l.
Qed.

Lemma is_table_line_Blank_r line w :
  Blank w -> is_table_line (line +:+ w) = is_table_line line.
Proof.
  intros Hw. apply eq_true_iff_eq.
  rewrite !is_table_line_spec. by apply Retained_Blank_r.
Qed.

Lemma is_table_line_Blank w : Blank w -> is_table_line w = false.
Proof.
  intros Hw. apply is_table_line_false. intros [Hbar _].
  by apply (Blank_no_ink "|" w).
Qed.

Lemma split_cells_Blank_l w line :
  Blank w -> split_cells (w +:+ line) = split_cells line.
Proof.
  intros Hw. unfold split_cells.
  destruct (split_app "|"%char w line) as (init & x & p0 & ps & Hsw & -> & ->).
  rewrite split_single in Hsw by by apply (Blank_no_ink "|" w).
  destruct init as [|i [|j init]]; [|done..].
  injection Hsw as <-. cbn. by rewrite strip_app_Blank_l.
Qed.

Lemma split_cells_Blank_r line w :
  Blank w -> split_cells (line +:+ w) = split_cells line.
Proof.
  intros Hw. unfold split_cells.
  destruct (split_app "|"%char line w) as (init & x & p0 & ps & -> & Hsw & ->).
  rewrite split_single in Hsw by by apply (Blank_no_ink "|" w).
  injection Hsw as <- <-.
  rewrite !map_app. cbn. by rewrite strip_app_Blank_r.
Qed.

Lemma cells_of_lines_app ls1 ls2 :
  cells_of_lines (ls1 ++ ls2) = cells_of_lines ls1 ++ cells_of_lines ls2.
Proof. unfold cells_of_lines. by rewrite List.filter_app, map_app. Qed.

Lemma cells_of_lines_Blank ls : Forall Blank ls -> cells_of_lines ls = [].
Proof.
  unfold cells_of_lines. induction 1 as [|l ls Hl _ IH]; [done|].
  cbn. by rewrite is_table_line_Blank.
Qed.

Lemma cells_of_lines_Blank_l w line :
  Blank w -> cells_of_lines [w +:+ line] = cells_of_lines [line].
Proof.
  intros Hw. unfold cells_of_lines. cbn.
  rewrite is_table_line_Blank_l by done.
  destruct (is_table_line line); [|done]. cbn. by rewrite split_cells_Blank_l.
Qed.

Lemma cells_of_lines_Blank_r line w :
  Blank w -> cells_of_lines [line +:+ w] = cells_of_lines [line].
Proof.
  intros Hw. unfold cells_of_lines. cbn.
  rewrite is_table_line_Blank_r by done.
  destruct (is_table_line line); [|done]. cbn. by rewrite split_cells_Blank_r.
Qed.

Lemma cells_of_lines_front pre t :
  Blank pre ->
  cells_of_lines (split LF (pre +:+ t)) = cells_of_lines (split LF t).
Proof.
  intros Hpre.
  destruct (split_app LF pre t) as (init & l & p0 & ps & Hsp & -> & ->).
  apply (Blank_split LF) in Hpre. rewrite Hsp in Hpre.
  apply Forall_app in Hpre as [Hinit Hl]. apply Forall_cons in Hl as [Hl _].
  rewrite !cells_of_lines_app, cells_of_lines_Blank, cells_of_lines_Blank_l by done.
  by rewrite <- cells_of_lines_app.
Qed.

Lemma cells_of_lines_back m post :
  Blank post ->
  cells_of_lines (split LF (m +:+ post)) = cells_of_lines (split LF m).
Proof.
  intros Hpost.
  destruct (split_app LF m post) as (init & l & p0 & ps & -> & Hsp & ->).
  apply (Blank_split LF) in Hpost. rewrite Hsp in Hpost.
  apply Forall_cons in Hpost as [Hp0 Hps].
  rewrite !cells_of_lines_app, cells_of_lines_Blank_r by done.
  by rewrite (cells_of_lines_Blank ps), app_nil_r.
Qed.

(** The trimming of line 69 does not show in the cells. *)
Lemma cells_of_lines_strip text :
  cells_of_lines (lines_of text) = cells_of_lines (split LF text).
Proof.
  unfold lines_of.
  destruct (strip_spec text) as (pre & post & Htext & Hpre & Hpost).
  rewrite Htext at 2.
  by rewrite cells_of_lines_front, cells_of_lines_back.
Qed.

Lemma table_of_lines_cells ks ks' :
  map split_cells ks = map split_cells ks' ->
  table_of_lines ks = table_of_lines ks'.
Proof.
  destruct ks as [|k ks], ks' as [|k' ks']; try done.
  cbn. by intros [= -> ->].
Qed.

(** [extract_table] builds its table from the retained lines of the text
    as it was given. *)
Lemma extract_table_raw_lines text :
  extract_table text
  = table_of_lines (List.filter is_table_line (split LF text)).
Proof.
  unfold extract_table, table_lines_of.
  rewrite collect_table_lines_filter. cbn [app].
  apply table_of_lines_cells, cells_of_lines_strip.
Qed.

(** C5: a line of the text is kept as table data exactly when it holds the
    delimiter and its lower-cased content holds neither "customize" nor
    "spreadsheet"; the kept lines stay in their order, and a line that
    mentions one of the two words is dropped whether or not it holds the
    delimiter. This holds of the lines the loop of lines 72-75 goes through
    (the lines of the trimmed text) and, for the table returned, of the
    lines of the text as it was given. *)
Theorem table_lines_are_the_retained_lines (text : string) :
  Selected Retained (lines_of text) (table_lines_of text)
  /\ (forall line,
        line ∈ table_lines_of text <-> line ∈ lines_of text /\ Retained line)
  /\ (forall line,
        Mentions "customize" line \/ Mentions "spreadsheet" line ->
        line ∉ table_lines_of text)
  /\ (exists kept,
        Selected Retained (split LF text) kept
        /\ (forall line, line ∈ kept <-> line ∈ split LF text /\ Retained line)
        /\ extract_table text = table_of_lines kept).
Proof.
  pose proof (table_lines_of_Selected text) as Hsel.
  split; [done|]. split; [|split].
  - by apply Selected_elem_of.
  - intros line Hnoise Hin.
    apply (Selected_elem_of _ _ _ Hsel) in Hin as [_ (_ & Hc & Hs)].
    rewrite Substring_lower_Mentions in Hc, Hs. tauto.
  - exists (List.filter is_table_line (split LF text)).
    assert (Selected Retained (split LF text)
              (List.filter is_table_line (split LF text))) as Hraw
      by by apply Selected_filter.
    split; [done|]. split; [by apply Selected_elem_of|].
    apply extract_table_raw_lines.
Qed.

Lemma extract_table_retained_raw text first others :
  Selected Retained (split LF text) (first :: others) ->
  extract_table text
  = Ok {| headers := map strip (split "|"%char first);
          rows := map (fun line => map strip (split "|"%char line)) others |}.
Proof.
  intros H%Selected_filter. by rewrite extract_table_raw_lines, <- H.
Qed.

Lemma extract_table_none_retained_raw text :
  Selected Retained (split LF text) [] ->
  extract_table text = Raise NoTableDetected.
Proof.
  intros H%Selected_filter. by rewrite extract_table_raw_lines, <- H.
Qed.

(** C3: the three-line sample parses to headers A, B and rows 1, 2 and
    3, 4; whenever some line of the text is retained, the first retained
    line, split on the delimiter with every field trimmed, is the header
    row and each further retained line gives one row the same way; rows
    are not checked against the header length. *)
Theorem extract_table_headers_and_rows :
  extract_table ("A | B" +:+ nl +:+ "1 | 2" +:+ nl +:+ "3 | 4")
  = Ok {| headers := ["A"; "B"]; rows := [["1"; "2"]; ["3"; "4"]] |}
  /\ (forall text first others,
        Selected Retained (split LF text) (first :: others) ->
        extract_table text
        = Ok {| headers := map strip (split "|"%char first);
                rows := map (fun line => map strip (split "|"%char line)) others |})
  /\ extract_table ("A | B" +:+ nl +:+ "1 | 2 | 3" +:+ nl +:+ "4")
     = Ok {| headers := ["A"; "B"]; rows := [["1"; "2"; "3"]] |}.
Proof.
  split; [reflexivity|]. split; [|reflexivity].
  apply extract_table_retained_raw.
Qed.

Lemma extract_table_witness :
  Selected Retained
    (split LF ("x | y" +:+ nl +:+ "No spreadsheet | here" +:+ nl +:+ " 7 |8| 9 "))
    ["x | y"; " 7 |8| 9 "]
  /\ extract_table ("x | y" +:+ nl +:+ "No spreadsheet | here" +:+ nl +:+ " 7 |8| 9 ")
     = Ok {| headers := ["x"; "y"]; rows := [["7"; "8"; "9"]] |}.
Proof.
  assert (Selected Retained
            (split LF ("x | y" +:+ nl +:+ "No spreadsheet | here" +:+ nl +:+ " 7 |8| 9 "))
            ["x | y"; " 7 |8| 9 "]) as H.
  { by apply Selected_filter. }
  split; [exact H|].
  exact (proj1 (proj2 extract_table_headers_and_rows) _ _ _ H).
Defined.

End ExtractorFacts.

(** ** The chat handler *)

Section ChatFacts.
Import Str.


Lemma chat_blank E data w s :
  data !! "user_input" = Some (JString s) ->
  Blank s ->
  chat E data w = (Ok (plain "Input cannot be empty."), w).
Proof.
  intros Hdata Hs%strip_empty_iff. run_handler.
  by rewrite Hdata; cbn; rewrite Hs.
Qed.

Lemma chat_missing E data w :
  data !! "user_input" = None ->
  chat E data w = (Ok (plain "Input cannot be empty."), w).
Proof. intros Hdata. run_handler. by rewrite Hdata. Qed.

Lemma chat_answered E data w s text :
  data !! "user_input" = Some (JString s) ->
  ~ Blank s ->
  create_connection E = Ok tt ->
  send_message E (conversation_history w ++ [mkTurn user [strip s +:+ nl]])
    (strip s) = Ok text ->
  chat E data w
  = let u := strip s in
    let r := strip text in
    let call := CallGateway (conversation_history w ++ [mkTurn user [u +:+ nl]]) u in
    if wants_table u r then
      (match extract_table r with
       | Ok t => Ok (mkPayload r (Some t))
       | Raise _ => Ok (plain r)
       end,
       chat_world w u r [call; CallExtractTable r])
    else (Ok (plain r), chat_world w u r [call]).
Proof.
  intros Hdata Hs Hnet Hsend. run_handler. rewrite Hdata; cbn.
  destruct (String.eqb_spec (strip s) "") as [Hu|_].
  { by apply strip_empty_iff in Hu. }
  rewrite Hnet; cbn. rewrite Hsend; cbn.
  unfold chat_world.
  destruct (wants_table (strip s) (strip text)); cbn.
  - destruct (extract_table (strip text)); cbn; by rewrite <- !app_assoc.
  - by rewrite <- !app_assoc.
Qed.

Lemma chat_gateway_raises E data w s e :
  data !! "user_input" = Some (JString s) ->
  ~ Blank s ->
  create_connection E = Ok tt ->
  send_message E (conversation_history w ++ [mkTurn user [strip s +:+ nl]])
    (strip s) = Raise e ->
  chat E data w
  = (Ok (plain ("Error: " +:+ str_exn e)),
     mkWorld (conversation_history w ++ [mkTurn user [strip s +:+ nl]])
       (files w) (dirs w)
       (trace w ++ [CallGateway
                      (conversation_history w ++ [mkTurn user [strip s +:+ nl]])
                      (strip s)])).
Proof.
  intros Hdata Hs Hnet Hsend. run_handler. rewrite Hdata; cbn.
  destruct (String.eqb_spec (strip s) "") as [Hu|_].
  { by apply strip_empty_iff in Hu. }
  rewrite Hnet; cbn. by rewrite Hsend.
Qed.

Lemma wants_table_spec u r : wants_table u r = true <-> Triggered u r.
Proof.
  unfold wants_table, Triggered.
  rewrite !orb_true_iff, !contains_lower_spec. tauto.
Qed.

(** Trimming the input and the response leaves the trigger as it is. *)
Lemma Triggered_strip s text : Triggered (strip s) (strip text) <-> Triggered s text.
Proof. unfold Triggered. by rewrite !Mentions_strip. Qed.

Lemma wants_table_false u r : wants_table u r = false <-> ~ Triggered u r.
Proof. rewrite <- wants_table_spec. by destruct (wants_table u r). Qed.

(** C7: a chat request whose input is empty or all whitespace is answered
    with "Input cannot be empty."; the world is left as it was: nothing is
    appended to the conversation store and the gateway is not called. *)
Theorem chat_rejects_blank_input E data w s :
  data !! "user_input" = Some (JString s) ->
  Blank s ->
  fst (chat E data w)
  = Ok {| response := "Input cannot be empty."; table := None |}
  /\ conversation_history (snd (chat E data w)) = conversation_history w
  /\ trace (snd (chat E data w)) = trace w
  /\ snd (chat E data w) = w.
Proof. intros Hdata Hs. by rewrite (chat_blank E data w s). Qed.

(** C9: a chat request whose body has no "user_input" key is handled as
    the empty input is: the same answer "Input cannot be empty.", the
    world left as it was. *)
Theorem chat_missing_input_is_empty_input E data w :
  data !! "user_input" = None ->
  chat E data w
  = (Ok {| response := "Input cannot be empty."; table := None |}, w)
  /\ chat E data w = chat E (<["user_input" := JString ""]> data) w.
Proof.
  intros Hdata. rewrite (chat_missing E data w Hdata). split; [done|].
  symmetry. apply (chat_blank _ _ _ "").
  - apply lookup_insert_eq.
  - constructor.
Qed.

(** C6: on a chat turn the gateway has answered, [extract_table] is called
    exactly when the user's input mentions "timetable" or "table form" or
    the response mentions "tabular", in any mix of cases, and it is called
    on the response; otherwise it is not called and the answer is the plain
    response. The handler tests the trimmed input and the trimmed response,
    which mention the same keywords as the untrimmed ones. *)
Theorem table_extraction_trigger E data w s text :
  data !! "user_input" = Some (JString s) ->
  ~ Blank s ->
  create_connection E = Ok tt ->
  send_message E (conversation_history w ++ [mkTurn user [strip s +:+ nl]])
    (strip s) = Ok text ->
  exists evs,
    trace (snd (chat E data w)) = trace w ++ evs
    /\ ((exists t, CallExtractTable t ∈ evs) <-> Triggered (strip s) (strip text))
    /\ (forall t, CallExtractTable t ∈ evs -> t = strip text)
    /\ (~ Triggered (strip s) (strip text) ->
        fst (chat E data w) = Ok {| response := strip text; table := None |})
    /\ (Triggered (strip s) (strip text) <-> Triggered s text).
Proof.
  intros Hdata Hs Hnet Hsend.
  rewrite (chat_answered E data w s text Hdata Hs Hnet Hsend). cbn zeta.
  destruct (wants_table (strip s) (strip text)) eqn:Hwants.
  - apply wants_table_spec in Hwants.
    eexists. split; [reflexivity|]. split; [|split; [|split]].
    + split; [done|]. intros _. eexists. apply elem_of_cons. right. by left.
    + intros t [Ht|Ht]%elem_of_cons; [done|].
      apply list_elem_of_singleton in Ht. congruence.
    + done.
    + apply Triggered_strip.
  - apply wants_table_false in Hwants.
    eexists. split; [reflexivity|]. split; [|split; [|split]].
    + split; [|done]. intros [t Ht%list_elem_of_singleton]. done.
    + intros t Ht%list_elem_of_singleton. done.
    + done.
    + apply Triggered_strip.
Qed.

(** C4: a text without the delimiter, and more generally a text none of
    whose lines is retained, makes [extract_table] raise NoTableDetected;
    the chat handler then answers with the plain response. *)
Theorem no_table_detected_falls_back :
  (forall text, ~ Substring "|" text -> extract_table text = Raise NoTableDetected)
  /\ (forall text,
        Selected Retained (split LF text) [] ->
        extract_table text = Raise NoTableDetected)
  /\ (forall E data w s text,
        data !! "user_input" = Some (JString s) ->
        ~ Blank s ->
        create_connection E = Ok tt ->
        send_message E (conversation_history w ++ [mkTurn user [strip s +:+ nl]])
          (strip s) = Ok text ->
        extract_table (strip text) = Raise NoTableDetected ->
        fst (chat E data w) = Ok {| response := strip text; table := None |}).
Proof.
  split; [apply extract_table_no_delimiter|].
  split; [apply extract_table_none_retained_raw|].
  intros E data w s text Hdata Hs Hnet Hsend Hnone.
  rewrite (chat_answered E data w s text Hdata Hs Hnet Hsend). cbn zeta.
  rewrite Hnone. by destruct (wants_table (strip s) (strip text)).
Qed.

End ChatFacts.

(** ** The upload handler *)

Section UploadFacts.
Import Str.

Lemma length_sapp s t :
  String.length (s +:+ t) = String.length s + String.length t.
Proof.
  induction s as [|c s IH]; [done|].
  rewrite sapp_cons. cbn [String.length]. by rewrite IH.
Qed.

Lemma length_lower s : String.length (lower s) = String.length s.
Proof. induction s as [|c s IH]; [done|]. cbn. by rewrite IH. Qed.

(** Two endings of one string that are equally long are the same. *)
Lemma Suffix_same_length a b n :
  Suffix a n -> Suffix b n -> String.length a = String.length b -> a = b.
Proof.
  intros [p ->] [q Hq] Hlen. revert q Hq.
  induction p as [|c p IH]; intros q Hq.
  - rewrite sapp_nil_l in Hq. destruct q as [|d q]; [done|].
    apply (f_equal String.length) in Hq.
    rewrite sapp_cons in Hq. cbn [String.length] in Hq.
    rewrite length_sapp in Hq. lia.
  - destruct q as [|d q].
    + rewrite sapp_nil_l in Hq. apply (f_equal String.length) in Hq.
      rewrite sapp_cons in Hq. cbn [String.length] in Hq.
      rewrite length_sapp in Hq. lia.
    + rewrite !sapp_cons in Hq. injection Hq as _ Hq. by apply IH in Hq.
Qed.

Lemma Suffix_drop c a n : Suffix (String c a) n -> Suffix a n.
Proof.
  intros [p ->]. exists (p +:+ String c "").
  by rewrite sapp_assoc.
Qed.

Lemma rcut_None sep s :
  ~ Substring (String sep "") s -> rcut sep s = None.
Proof.
  induction s as [|c s IH]; intros Hno; [done|]. cbn [rcut].
  rewrite IH.
  - destruct (Ascii.eqb_spec c sep) as [->|]; [|done].
    destruct Hno. by exists "", s.
  - intros H. by apply Hno, Substring_cons.
Qed.

(** [rcut] cuts at the last separator. *)
Lemma rcut_last sep stem ext :
  ~ Substring (String sep "") ext ->
  rcut sep (stem +:+ String sep ext) = Some (stem, ext).
Proof.
  intros Hno. induction stem as [|c stem IH].
  - rewrite sapp_nil_l. cbn [rcut]. rewrite (rcut_None _ _ Hno).
    by rewrite Ascii.eqb_refl.
  - rewrite sapp_cons. cbn [rcut]. by rewrite IH.
Qed.

(** [allowed_file] looks at the lower-cased text after the last dot. *)
Lemma allowed_file_spec stem ext :
  ~ Substring "." ext ->
  allowed_file (stem +:+ "." +:+ ext)
  = bool_decide (lower ext ∈ ALLOWED_EXTENSIONS).
Proof.
  intros Hno. unfold allowed_file, rsplit1.
  change ("." +:+ ext) with (String "."%char ext).
  rewrite (rcut_last _ _ _ Hno).
  assert (contains "." (stem +:+ String "."%char ext) = true) as ->; [|done].
  apply contains_spec. by exists stem, ext.
Qed.

Lemma allowed_extension_no_dot ext :
  lower ext ∈ ALLOWED_EXTENSIONS -> ~ Substring "." ext.
Proof.
  intros Hin (pre & post & ->).
  rewrite !lower_app in Hin.
  assert (Substring "." (lower pre +:+ lower "." +:+ lower post)) as Hdot
    by (by exists (lower pre), (lower post)).
  apply contains_spec in Hdot.
  unfold ALLOWED_EXTENSIONS in Hin.
  apply elem_of_union in Hin as [Hin|Hin]; apply elem_of_singleton in Hin;
    rewrite Hin in Hdot; discriminate.
Qed.

Lemma filename_not_empty stem ext : (stem +:+ "." +:+ ext =? "")%string = false.
Proof. apply String.eqb_neq. by destruct stem. Qed.

Lemma upload_invalid E request_files w file stem ext :
  request_files !! "file" = Some file ->
  filename file = stem +:+ "." +:+ ext ->
  ~ Substring "." ext ->
  lower ext ∉ ALLOWED_EXTENSIONS ->
  upload_file E request_files w
  = (Ok (plain "Invalid file type. Only PDF and DOCX are allowed."), w).
Proof.
  intros Hfile Hname Hno Hext. unfold upload_file, truthy.
  rewrite Hfile, Hname, filename_not_empty, allowed_file_spec by done.
  by rewrite bool_decide_eq_false_2.
Qed.

(** A sanitised name that keeps an extension spelt otherwise than "pdf" and
    "docx" passes neither [endswith] test. *)
Lemma mixed_case_extension_dispatch ext name :
  lower ext ∈ ALLOWED_EXTENSIONS ->
  ext ∉ ALLOWED_EXTENSIONS ->
  Suffix ext name ->
  endswith ".pdf" name = false /\ endswith ".docx" name = false.
Proof.
  intros Hlow Hext Hsuf.
  assert (String.length ext = 3 /\ lower ext = "pdf"
          \/ String.length ext = 4 /\ lower ext = "docx") as Hlen.
  { unfold ALLOWED_EXTENSIONS in Hlow.
    apply elem_of_union in Hlow as [Hlow|Hlow]; apply elem_of_singleton in Hlow;
      [left | right]; (split; [|done]);
      by rewrite <- length_lower, Hlow. }
  assert (forall e, e ∈ ALLOWED_EXTENSIONS -> ext <> e) as Hne
    by (intros e He ->; done).
  assert (forall e, lower e ∉ ALLOWED_EXTENSIONS -> ext <> e) as Hnl
    by (intros e He ->; done).
  split; apply not_true_iff_false; intros Hends%endswith_spec.
  - destruct Hlen as [[Hlen _]|[Hlen _]].
    + apply (Hne "pdf"); [by_evaluation|].
      apply (Suffix_same_length _ _ name); [done | by apply Suffix_drop in Hends | done].
    + apply (Hnl ".pdf"); [by_evaluation|].
      by apply (Suffix_same_length _ _ name).
  - destruct Hlen as [[Hlen _]|[Hlen _]].
    + apply (Hnl "ocx"); [by_evaluation|].
      apply (Suffix_same_length _ _ name); [done | by do 2 apply Suffix_drop in Hends | done].
    + apply (Hne "docx"); [by_evaluation|].
      apply (Suffix_same_length _ _ name); [done | by apply Suffix_drop in Hends | done].
Qed.

(** The scratch path of an upload. *)
Lemma upload_unsupported E request_files w file :
  request_files !! "file" = Some file ->
  filename file <> "" ->
  allowed_file (filename file) = true ->
  endswith ".pdf" (secure_filename E (filename file)) = false ->
  endswith ".docx" (secure_filename E (filename file)) = false ->
  let upload_folder := path_join (getcwd E) "uploads" in
  let file_path := path_join upload_folder (secure_filename E (filename file)) in
  exists ds,
    upload_file E request_files w
    = (Ok (plain "Unsupported file format."),
       mkWorld (conversation_history w) ({[file_path]} ∪ files w) ds (trace w)).
Proof.
  intros Hfile Hname Hallowed Hpdf Hdocx. cbn zeta.
  unfold upload_file, truthy. rewrite Hfile, Hallowed.
  apply String.eqb_neq in Hname. rewrite Hname. run_handler.
  destruct (bool_decide (path_join (getcwd E) "uploads" ∈ files w)
            || bool_decide (path_join (getcwd E) "uploads" ∈ dirs w)) eqn:Hthere;
    cbn; rewrite ?Hthere; cbn; rewrite Hpdf, Hdocx; eauto.
Qed.

(** C8: an upload whose extension, compared as [allowed_file] compares it
    (lower-cased), is neither pdf nor docx is answered with "Invalid file
    type. Only PDF and DOCX are allowed."; the world is left as it was:
    the gateway is not called and nothing is appended to the store. *)
Theorem upload_rejects_other_extensions E request_files w file stem ext :
  request_files !! "file" = Some file ->
  filename file = stem +:+ "." +:+ ext ->
  ~ Substring "." ext ->
  lower ext ∉ ALLOWED_EXTENSIONS ->
  fst (upload_file E request_files w)
  = Ok {| response := "Invalid file type. Only PDF and DOCX are allowed.";
          table := None |}
  /\ conversation_history (snd (upload_file E request_files w))
     = conversation_history w
  /\ trace (snd (upload_file E request_files w)) = trace w
  /\ snd (upload_file E request_files w) = w.
Proof.
  intros Hfile Hname Hno Hext.
  by rewrite (upload_invalid E request_files w file stem ext).
Qed.

(** C10: an upload whose extension is pdf or docx only when lower-cased
    passes [allowed_file] and is saved, meets neither branch of the
    dispatch on the sanitised name, and is answered with "Unsupported file
    format."; the gateway is not called, the store is unchanged, and the
    saved file is still on disk when the handler returns. *)
Theorem upload_mixed_case_extension E request_files w file stem ext :
  request_files !! "file" = Some file ->
  filename file = stem +:+ "." +:+ ext ->
  lower ext ∈ ALLOWED_EXTENSIONS ->
  ext ∉ ALLOWED_EXTENSIONS ->
  Suffix ext (secure_filename E (filename file)) ->
  let file_path :=
    path_join (path_join (getcwd E) "uploads")
      (secure_filename E (filename file)) in
  allowed_file (filename file) = true
  /\ fst (upload_file E request_files w)
     = Ok {| response := "Unsupported file format."; table := None |}
  /\ conversation_history (snd (upload_file E request_files w))
     = conversation_history w
  /\ trace (snd (upload_file E request_files w)) = trace w
  /\ file_path ∈ files (snd (upload_file E request_files w)).
Proof.
  intros Hfile Hname Hlow Hext Hsuf. cbn zeta.
  assert (allowed_file (filename file) = true) as Hallowed.
  { rewrite Hname, allowed_file_spec by by apply allowed_extension_no_dot.
    by apply bool_decide_eq_true_2. }
  destruct (mixed_case_extension_dispatch _ _ Hlow Hext Hsuf) as [Hpdf Hdocx].
  assert (filename file <> "") as Hne.
  { rewrite Hname. by destruct stem. }
  destruct (upload_unsupported E request_files w file Hfile Hne Hallowed Hpdf Hdocx)
    as [ds ->].
  cbn. repeat split; try done.
  apply elem_of_union. left. by apply elem_of_singleton.
Qed.

End UploadFacts.

(** ** The conversation store across requests *)

Section StoreFacts.
Import Str.

Ltac appended_by_cases :=
  first
    [ exists []; split; [by rewrite app_nil_r | constructor]
    | eexists [_]; split; [reflexivity | by constructor]
    | eexists [_; _]; split; [by rewrite <- app_assoc | by constructor] ].

Lemma chat_appends E data w :
  exists added,
    conversation_history (snd (chat E data w)) = conversation_history w ++ added
    /\ Appended added.
Proof.
  run_handler. repeat (case_match; cbn in *; simplify_eq); appended_by_cases.
Qed.

Lemma upload_appends E request_files w :
  exists added,
    conversation_history (snd (upload_file E request_files w))
    = conversation_history w ++ added
    /\ Appended added.
Proof.
  run_handler. repeat (case_match; cbn in *; simplify_eq); appended_by_cases.
Qed.

(** One invocation adds nothing, a user turn, or a user turn and its reply,
    at the end of the store. *)
Lemma after_appends E req w :
  exists added,
    conversation_history (after E req w) = conversation_history w ++ added
    /\ Appended added.
Proof.
  unfold after, handle, index, bind, ret. destruct req as [|data|request_files].
  - exists []. split; [by rewrite app_nil_r | constructor].
  - destruct (chat_appends E data w) as (added & H & Hadded).
    exists added. split; [|done]. by destruct (chat E data w) as [[p|e] w'].
  - destruct (upload_appends E request_files w) as (added & H & Hadded).
    exists added. split; [|done].
    by destruct (upload_file E request_files w) as [[p|e] w'].
Qed.

Ltac exchanged_by_cases Hans :=
  first
    [ exists []; split; [by rewrite app_nil_r | constructor]
    | eexists [_; _]; split; [by rewrite <- app_assoc | by constructor]
    | exfalso;
      match goal with
      | H : send_message _ ?h ?m = Raise _ |- _ =>
          destruct (Hans h m) as [? ?]; congruence
      end ].

Lemma after_exchanges E req w :
  (forall h m, exists text, send_message E h m = Ok text) ->
  exists added,
    conversation_history (after E req w) = conversation_history w ++ added
    /\ Exchanged added.
Proof.
  intros Hans. unfold after, handle, index. destruct req as [|data|request_files].
  - exists []. split; [by rewrite app_nil_r | constructor].
  - run_handler.
    repeat (case_match; cbn in *; simplify_eq); exchanged_by_cases Hans.
  - run_handler.
    repeat (case_match; cbn in *; simplify_eq); exchanged_by_cases Hans.
Qed.

Lemma other_involutive r : other (other r) = r.
Proof. by destruct r. Qed.

Lemma alternates_app r h k :
  alternates r (h ++ k)
  = alternates r h
    && alternates (if Nat.even (length h) then r else other r) k.
Proof.
  revert r. induction h as [|t h IH]; intros r; [done|].
  cbn [app alternates length]. rewrite IH, Nat.even_succ, <- Nat.negb_even.
  rewrite other_involutive, <- andb_assoc.
  by destruct (Nat.even (length h)).
Qed.

Lemma alternates_exchange r h u m :
  alternates r h = true -> Paired h ->
  role u = r -> role m = other r ->
  alternates r (h ++ [u; m]) = true.
Proof.
  unfold Paired. intros Halt Hpair Hu Hm.
  rewrite alternates_app, Halt, Hpair. cbn. rewrite Hu, Hm. by destruct r.
Qed.

Lemma Paired_exchange h u m : Paired h -> Paired (h ++ [u; m]).
Proof.
  unfold Paired. rewrite length_app. cbn [length].
  replace (length h + 2) with (S (S (length h))) by lia. done.
Qed.

Lemma replies_follow_user prev h u :
  replies_follow prev h = true -> role u = user ->
  replies_follow prev (h ++ [u]) = true.
Proof.
  revert prev. induction h as [|t h IH]; intros prev Hh Hu; cbn in *.
  - by rewrite Hu.
  - destruct (role t); [by apply IH|].
    destruct prev as [[]|]; try done. by apply IH.
Qed.

Lemma replies_follow_exchange prev h u m :
  replies_follow prev h = true -> role u = user -> role m = model ->
  replies_follow prev (h ++ [u; m]) = true.
Proof.
  revert prev. induction h as [|t h IH]; intros prev Hh Hu Hm; cbn in *.
  - by rewrite Hu, Hm.
  - destruct (role t); [by apply IH|].
    destruct prev as [[]|]; try done. by apply IH.
Qed.

Lemma replies_follow_Appended h added :
  replies_follow None h = true -> Appended added ->
  replies_follow None (h ++ added) = true.
Proof.
  intros Hh [|u Hu|u m Hu Hm].
  - by rewrite app_nil_r.
  - by apply replies_follow_user.
  - by apply replies_follow_exchange.
Qed.

Lemma serve_prefix reqs w :
  conversation_history w `prefix_of` conversation_history (serve reqs w).
Proof.
  revert w. induction reqs as [|[E req] reqs IH]; intros w; [done|].
  cbn [serve]. etrans; [|apply IH].
  destruct (after_appends E req w) as (added & -> & _).
  by apply prefix_app_r.
Qed.

Lemma serve_replies_follow reqs w :
  replies_follow None (conversation_history w) = true ->
  replies_follow None (conversation_history (serve reqs w)) = true.
Proof.
  revert w. induction reqs as [|[E req] reqs IH]; intros w Hw; [done|].
  cbn [serve]. apply IH.
  destruct (after_appends E req w) as (added & -> & Hadded).
  by apply replies_follow_Appended.
Qed.

Lemma serve_alternates reqs w :
  GatewayAnswers reqs ->
  Alternating (conversation_history w) -> Paired (conversation_history w) ->
  Alternating (conversation_history (serve reqs w))
  /\ Paired (conversation_history (serve reqs w)).
Proof.
  unfold GatewayAnswers, Alternating.
  revert w. induction reqs as [|[E req] reqs IH]; intros w Hans Halt Hpair; [done|].
  apply Forall_cons in Hans as [Hans Hrest]. cbn [serve fst] in *.
  destruct (after_exchanges E req w Hans) as (added & Hadded & Hex).
  apply IH; [done|..]; rewrite Hadded; destruct Hex as [|u m Hu Hm];
    rewrite ?app_nil_r; try done.
  - by apply alternates_exchange.
  - by apply Paired_exchange.
Qed.

(** C1, as the code has it: over any run of requests the store only grows
    at its end (no turn is removed or reordered); one invocation adds
    nothing, one user turn, or a user turn followed by its model reply, so
    every model turn comes directly after a user turn; and the turns
    alternate strictly user, model, ... with every user turn answered as
    long as the gateway answers every call. *)
Theorem conversation_store_append_only (reqs : list (Env * Request)) (w : World) :
  conversation_history w `prefix_of` conversation_history (serve reqs w)
  /\ (forall E req, exists added,
        conversation_history (after E req w) = conversation_history w ++ added
        /\ Appended added)
  /\ (replies_follow None (conversation_history w) = true ->
      replies_follow None (conversation_history (serve reqs w)) = true)
  /\ (GatewayAnswers reqs ->
      Alternating (conversation_history w) -> Paired (conversation_history w) ->
      Alternating (conversation_history (serve reqs w))
      /\ Paired (conversation_history (serve reqs w))).
Proof.
  split; [apply serve_prefix|].
  split; [intros E req; apply after_appends|].
  split; [apply serve_replies_follow | apply serve_alternates].
Qed.

End StoreFacts.

(** ** The scratch file of an upload *)

Section ScratchFacts.
Import Str.

(** When the PDF reader raises, the handler answers from its [except]
    branch, past the [os.remove] of line 191: the saved file stays. *)
Lemma upload_pdf_extraction_raises E request_files w file e :
  request_files !! "file" = Some file ->
  filename file <> "" ->
  allowed_file (filename file) = true ->
  endswith ".pdf" (secure_filename E (filename file)) = true ->
  let file_path :=
    path_join (path_join (getcwd E) "uploads")
      (secure_filename E (filename file)) in
  pdf_pages E file_path = Raise e ->
  fst (upload_file E request_files w)
  = Ok (plain ("Error processing file: " +:+ str_exn e))
  /\ file_path ∈ files (snd (upload_file E request_files w))
  /\ conversation_history (snd (upload_file E request_files w))
     = conversation_history w.
Proof.
  intros Hfile Hname Hallowed Hpdf. cbn zeta. intros Hpages.
  unfold upload_file, truthy. rewrite Hfile, Hallowed.
  apply String.eqb_neq in Hname. rewrite Hname. run_handler.
  destruct (bool_decide (path_join (getcwd E) "uploads" ∈ files w)
            || bool_decide (path_join (getcwd E) "uploads" ∈ dirs w)) eqn:Hthere;
    cbn; rewrite ?Hthere; cbn; rewrite Hpdf; cbn; rewrite Hpages; cbn;
    (split; [done|]); (split; [|done]);
    apply elem_of_union; left; by apply elem_of_singleton.
Qed.

(** When the PDF reader returns, line 191 removes the saved file. *)
Lemma upload_pdf_extracted E request_files w file pages :
  request_files !! "file" = Some file ->
  filename file <> "" ->
  allowed_file (filename file) = true ->
  endswith ".pdf" (secure_filename E (filename file)) = true ->
  let file_path :=
    path_join (path_join (getcwd E) "uploads")
      (secure_filename E (filename file)) in
  pdf_pages E file_path = Ok pages ->
  file_path ∉ files (snd (upload_file E request_files w)).
Proof.
  intros Hfile Hname Hallowed Hpdf. cbn zeta. intros Hpages.
  unfold upload_file, truthy. rewrite Hfile, Hallowed.
  apply String.eqb_neq in Hname. rewrite Hname. run_handler.
  set (file_path := path_join _ (secure_filename E (filename file))) in *.
  assert (forall fs : gset string, bool_decide (file_path ∈ {[file_path]} ∪ fs) = true)
    as Hsaved.
  { intros fs. apply bool_decide_eq_true_2, elem_of_union. left.
    by apply elem_of_singleton. }
  assert (forall fs : gset string, file_path ∉ ({[file_path]} ∪ fs) ∖ {[file_path]})
    as Hgone.
  { intros fs [_ Hnot]%elem_of_difference. apply Hnot. by apply elem_of_singleton. }
  destruct (bool_decide (path_join (getcwd E) "uploads" ∈ files w)
            || bool_decide (path_join (getcwd E) "uploads" ∈ dirs w)) eqn:Hthere;
    cbn; rewrite ?Hthere; cbn; rewrite Hpdf; cbn; rewrite Hpages; cbn;
    rewrite Hsaved; cbn;
    destruct (send_message E _ _); cbn; apply Hgone.
Qed.

(** C2, at an upload whose text extraction raises: the handler answers
    "Error processing file: ..." and the scratch file is still among the
    files on disk when it returns. *)
Theorem scratch_file_survives_failed_extraction :
  let E := sample_env (Ok tt) (Ok "A summary.")
             (Raise (ExternalError "EOF marker not found")) in
  let after_upload := upload_file E (upload_of "notes.pdf") boot in
  allowed_file "notes.pdf" = true
  /\ fst after_upload
     = Ok {| response := "Error processing file: EOF marker not found";
             table := None |}
  /\ "/srv/app/uploads/notes.pdf" ∈ files (snd after_upload)
  /\ trace (snd after_upload) = [CallTextExtractor "/srv/app/uploads/notes.pdf"].
Proof.
  cbn zeta. split; [reflexivity|]. split; [reflexivity|]. split; [|reflexivity].
  by_evaluation.
Qed.

End ScratchFacts.

(** ** The statements at sample requests *)

Section Samples.
Import Str.

Lemma alternation_broken_by_gateway_error :
  let E := sample_env (Ok tt) (Raise (ExternalError "503 Service Unavailable"))
             (Ok []) in
  let first := PostChat (chat_body "Hello") in
  let second := PostChat (chat_body "Are you there?") in
  fst (handle E first boot) = Ok (Json (plain "Error: 503 Service Unavailable"))
  /\ fst (handle E second (after E first boot))
     = Ok (Json (plain "Error: 503 Service Unavailable"))
  /\ conversation_history (serve [(E, first); (E, second)] boot)
     = [mkTurn user ["Hello" +:+ nl]; mkTurn user ["Are you there?" +:+ nl]]
  /\ ~ Alternating (conversation_history (serve [(E, first); (E, second)] boot)).
Proof.
  cbn zeta. split; [reflexivity|]. split; [reflexivity|]. split; [reflexivity|].
  unfold Alternating. by vm_compute.
Qed.

Lemma conversation_store_witness :
  let E := sample_env (Ok tt) (Ok " Certainly. ") (Ok ["Chapter 1"; " intro"]) in
  let reqs := [(E, PostChat (chat_body "Hello")); (E, GetIndex);
               (E, PostUpload (upload_of "notes.pdf"));
               (E, PostChat (chat_body "  "))] in
  GatewayAnswers reqs
  /\ Alternating (conversation_history boot)
  /\ Paired (conversation_history boot)
  /\ Alternating (conversation_history (serve reqs boot))
  /\ Paired (conversation_history (serve reqs boot))
  /\ replies_follow None (conversation_history (serve reqs boot)) = true
  /\ length (conversation_history (serve reqs boot)) = 4.
Proof.
  cbn zeta.
  assert (GatewayAnswers
            [(sample_env (Ok tt) (Ok " Certainly. ") (Ok ["Chapter 1"; " intro"]),
              PostChat (chat_body "Hello"));
             (sample_env (Ok tt) (Ok " Certainly. ") (Ok ["Chapter 1"; " intro"]),
              GetIndex);
             (sample_env (Ok tt) (Ok " Certainly. ") (Ok ["Chapter 1"; " intro"]),
              PostUpload (upload_of "notes.pdf"));
             (sample_env (Ok tt) (Ok " Certainly. ") (Ok ["Chapter 1"; " intro"]),
              PostChat (chat_body "  "))]) as Hans.
  { repeat constructor; intros h m; by eexists. }
  split; [exact Hans|]. split; [reflexivity|]. split; [reflexivity|].
  split; [|split; [|split; [|reflexivity]]].
  - apply (proj2 (proj2 (proj2 (conversation_store_append_only _ boot))) Hans);
      reflexivity.
  - apply (proj2 (proj2 (proj2 (conversation_store_append_only _ boot))) Hans);
      reflexivity.
  - apply (proj1 (proj2 (proj2 (conversation_store_append_only _ boot))));
      reflexivity.
Defined.

Lemma chat_rejects_blank_input_witness :
  let E := sample_env (Ok tt) (Ok "unused") (Ok []) in
  let s := " " +:+ nl +:+ "  " in
  chat_body s !! "user_input" = Some (JString s)
  /\ Blank s
  /\ fst (chat E (chat_body s) one_turn_in)
     = Ok {| response := "Input cannot be empty."; table := None |}
  /\ snd (chat E (chat_body s) one_turn_in) = one_turn_in.
Proof.
  cbn zeta.
  assert (Blank (" " +:+ nl +:+ "  ")) as Hs by (repeat constructor).
  split; [reflexivity|]. split; [exact Hs|].
  pose proof (chat_rejects_blank_input (sample_env (Ok tt) (Ok "unused") (Ok []))
                (chat_body (" " +:+ nl +:+ "  ")) one_turn_in _ eq_refl Hs)
    as (H1 & _ & _ & H4).
  split; [exact H1 | exact H4].
Defined.

Lemma chat_missing_input_witness :
  let E := sample_env (Ok tt) (Ok "unused") (Ok []) in
  let data : gmap string json := {[ "message" := JString "Hello" ]} in
  data !! "user_input" = None
  /\ chat E data one_turn_in
     = (Ok {| response := "Input cannot be empty."; table := None |}, one_turn_in).
Proof.
  cbn zeta. split; [reflexivity|].
  exact (proj1 (chat_missing_input_is_empty_input
                  (sample_env (Ok tt) (Ok "unused") (Ok []))
                  {[ "message" := JString "Hello" ]} one_turn_in eq_refl)).
Defined.

Lemma table_extraction_trigger_witness :
  let E := sample_env (Ok tt) (Ok (" Mon | Tue" +:+ nl +:+ "Maths | Art ")) (Ok []) in
  let s := " Draw up a TimeTable " in
  chat_body s !! "user_input" = Some (JString s)
  /\ ~ Blank s
  /\ create_connection E = Ok tt
  /\ fst (chat E (chat_body s) boot)
     = Ok {| response := "Mon | Tue" +:+ nl +:+ "Maths | Art";
             table := Some {| headers := ["Mon"; "Tue"];
                              rows := [["Maths"; "Art"]] |} |}
  /\ exists evs,
       trace (snd (chat E (chat_body s) boot)) = trace boot ++ evs
       /\ ((exists t, CallExtractTable t ∈ evs)
           <-> Triggered (strip s) (strip (" Mon | Tue" +:+ nl +:+ "Maths | Art "))).
Proof.
  cbn zeta.
  assert (~ Blank " Draw up a TimeTable ") as Hs.
  { intros H%strip_empty_iff. discriminate. }
  split; [reflexivity|]. split; [exact Hs|]. split; [reflexivity|].
  split; [reflexivity|].
  destruct (table_extraction_trigger
              (sample_env (Ok tt) (Ok (" Mon | Tue" +:+ nl +:+ "Maths | Art ")) (Ok []))
              (chat_body " Draw up a TimeTable ") boot _ _ eq_refl Hs eq_refl eq_refl)
    as (evs & Htrace & Hiff & _).
  exists evs. split; [exact Htrace | exact Hiff].
Defined.

Lemma no_table_detected_witness :
  let E := sample_env (Ok tt) (Ok " I cannot draw a timetable yet. ") (Ok []) in
  let s := "timetable for Monday" in
  ~ Substring "|" "I cannot draw a timetable yet."
  /\ extract_table "I cannot draw a timetable yet." = Raise NoTableDetected
  /\ wants_table (strip s) "I cannot draw a timetable yet." = true
  /\ fst (chat E (chat_body s) boot)
     = Ok {| response := "I cannot draw a timetable yet."; table := None |}.
Proof.
  cbn zeta.
  assert (~ Substring "|" "I cannot draw a timetable yet.") as Hno.
  { by apply contains_false. }
  assert (~ Blank "timetable for Monday") as Hs.
  { intros H%strip_empty_iff. discriminate. }
  destruct no_table_detected_falls_back as (Hbar & _ & Hchat).
  split; [exact Hno|]. split; [exact (Hbar _ Hno)|]. split; [reflexivity|].
  exact (Hchat (sample_env (Ok tt) (Ok " I cannot draw a timetable yet. ") (Ok []))
           (chat_body "timetable for Monday") boot _ _ eq_refl Hs eq_refl eq_refl
           (Hbar _ Hno)).
Defined.

Lemma upload_rejects_txt_witness :
  let E := sample_env (Ok tt) (Ok "unused") (Ok []) in
  upload_of "notes.txt" !! "file" = Some (mkFile "notes.txt" "%PDF-1.4")
  /\ ~ Substring "." "txt"
  /\ (lower "txt" ∉ ALLOWED_EXTENSIONS)
  /\ fst (upload_file E (upload_of "notes.txt") one_turn_in)
     = Ok {| response := "Invalid file type. Only PDF and DOCX are allowed.";
             table := None |}
  /\ snd (upload_file E (upload_of "notes.txt") one_turn_in) = one_turn_in.
Proof.
  cbn zeta.
  assert (~ Substring "." "txt") as Hno by (by apply contains_false).
  assert (lower "txt" ∉ ALLOWED_EXTENSIONS) as Hext.
  { by_evaluation. }
  split; [reflexivity|]. split; [exact Hno|]. split; [exact Hext|].
  pose proof (upload_rejects_other_extensions
                (sample_env (Ok tt) (Ok "unused") (Ok []))
                (upload_of "notes.txt") one_turn_in _ "notes" "txt"
                eq_refl eq_refl Hno Hext) as (H1 & _ & _ & H4).
  split; [exact H1 | exact H4].
Defined.

Lemma upload_mixed_case_extension_witness :
  let E := sample_env (Ok tt) (Ok "unused") (Ok []) in
  let after_upload := upload_file E (upload_of "report.PDF") one_turn_in in
  (lower "PDF" ∈ ALLOWED_EXTENSIONS)
  /\ ("PDF" ∉ ALLOWED_EXTENSIONS)
  /\ Suffix "PDF" (secure_filename E "report.PDF")
  /\ allowed_file "report.PDF" = true
  /\ fst after_upload
     = Ok {| response := "Unsupported file format."; table := None |}
  /\ conversation_history (snd after_upload) = conversation_history one_turn_in
  /\ trace (snd after_upload) = trace one_turn_in
  /\ "/srv/app/uploads/report.PDF" ∈ files (snd after_upload).
Proof.
  cbn zeta.
  assert (lower "PDF" ∈ ALLOWED_EXTENSIONS) as Hlow.
  { by_evaluation. }
  assert ("PDF" ∉ ALLOWED_EXTENSIONS) as Hext.
  { by_evaluation. }
  assert (Suffix "PDF" "report.PDF") as Hsuf by (by exists "report.").
  split; [exact Hlow|]. split; [exact Hext|]. split; [exact Hsuf|].
  exact (upload_mixed_case_extension
           (sample_env (Ok tt) (Ok "unused") (Ok []))
           (upload_of "report.PDF") one_turn_in _ "report" "PDF"
           eq_refl eq_refl Hlow Hext Hsuf).
Defined.

End Samples.

(** * Further facts about the code *)

(** ** More on strings *)

Section MoreStrFacts.
Import Str.

Lemma Substring_char_cons c d s :
  Substring (String c "") (String d s) <-> c = d \/ Substring (String c "") s.
Proof.
  split.
  - intros ([|a pre] & post & H).
    + injection H as <- _. by left.
    + rewrite sapp_cons in H. injection H as _ ->. right. by exists pre, post.
  - intros [->|H]; [by exists "", s | by apply Substring_cons].
Qed.

Lemma Substring_char_app c a b :
  Substring (String c "") (a +:+ b)
  <-> Substring (String c "") a \/ Substring (String c "") b.
Proof.
  induction a as [|d a IH].
  - rewrite sapp_nil_l. split; [by right | intros [(pre & post & H)|H]; [|done]].
    destruct pre; discriminate.
  - rewrite sapp_cons, !Substring_char_cons, IH. tauto.
Qed.

(** A text that holds the separator splits into at least two pieces. *)
Lemma split_length_ge2 sep s :
  Substring (String sep "") s -> 2 <= length (split sep s).
Proof.
  induction s as [|c s IH].
  - intros (pre & post & H). destruct pre; discriminate.
  - intros H. cbn [split]. destruct (Ascii.eqb_spec c sep) as [->|Hne].
    + destruct (split_cons sep s) as (w & ws & ->). cbn. lia.
    + apply Substring_char_cons in H as [->|H]; [done|].
      specialize (IH H). destruct (split sep s) as [|w ws]; cbn in *; lia.
Qed.

(** Splitting right after a piece that is free of the separator. *)
Lemma split_app_sep sep a b :
  ~ Substring (String sep "") a ->
  split sep (a +:+ String sep b) = a :: split sep b.
Proof.
  induction a as [|c a IH]; intros Hno.
  - rewrite sapp_nil_l. cbn [split]. by rewrite Ascii.eqb_refl.
  - rewrite sapp_cons. cbn [split].
    destruct (Ascii.eqb_spec c sep) as [->|_].
    + destruct Hno. by exists "", a.
    + rewrite IH; [done|]. intros H. by apply Hno, Substring_cons.
Qed.

(** Joining pieces that are free of the separator and splitting again gives
    the pieces back. *)
Lemma split_concat sep l ls :
  Forall (fun x => ~ Substring (String sep "") x) (l :: ls) ->
  split sep (String.concat (String sep "") (l :: ls)) = l :: ls.
Proof.
  revert l. induction ls as [|k ls IH]; intros l Hall.
  - apply Forall_cons in Hall as [Hl _]. cbn. by apply split_single.
  - apply Forall_cons in Hall as [Hl Hall].
    change (String.concat (String sep "") (l :: k :: ls))
      with (l +:+ String sep (String.concat (String sep "") (k :: ls))).
    rewrite split_app_sep by done. by rewrite IH.
Qed.

Lemma lstrip_rstrip_ink c t : is_space c = false -> exists r, rstrip (String c t) = String c r.
Proof.
  intros Hc. cbn [rstrip]. destruct (rstrip t); rewrite ?Hc; eauto.
Qed.

Lemma rstrip_idem s : rstrip (rstrip s) = rstrip s.
Proof.
  induction s as [|c s IH]; [done|]. cbn [rstrip].
  destruct (rstrip s) as [|d r] eqn:Hr.
  - destruct (is_space c) eqn:Hc; [done|]. cbn. by rewrite Hc.
  - cbn [rstrip] in *. by rewrite IH.
Qed.

Lemma lstrip_ink_or_empty s :
  lstrip s = "" \/ exists c t, lstrip s = String c t /\ is_space c = false.
Proof.
  induction s as [|c s IH]; [by left|]. cbn [lstrip].
  destruct (is_space c) eqn:Hc; [done|]. right. eauto.
Qed.

(** Trimming twice is trimming once. *)
Lemma strip_idem s : strip (strip s) = strip s.
Proof.
  unfold strip. destruct (lstrip_ink_or_empty s) as [->|(c & t & -> & Hc)]; [done|].
  destruct (lstrip_rstrip_ink c t Hc) as [r Hr].
  rewrite Hr at 1. cbn [lstrip]. rewrite Hc, <- Hr. apply rstrip_idem.
Qed.

Lemma Tidy_strip_l w cell : Blank w -> Tidy cell -> strip (w +:+ cell) = cell.
Proof. intros Hw (Hc & _). by rewrite strip_app_Blank_l. Qed.

End MoreStrFacts.

(** ** More on the table extractor (app.py, lines 67-86) *)

Section MoreExtractorFacts.
Import Str.

Lemma kept_lines text line :
  In line (List.filter is_table_line (split LF text))
  <-> line ∈ split LF text /\ Retained line.
Proof. by rewrite filter_In, list_elem_of_In, is_table_line_spec. Qed.

(** X1: [extract_table] returns a table exactly when some line of the text
    is retained; the only exception it raises is NoTableDetected. *)
Theorem extract_table_succeeds_iff (text : string) :
  ((exists t, extract_table text = Ok t)
   <-> exists line, line ∈ split LF text /\ Retained line)
  /\ (forall e, extract_table text = Raise e -> e = NoTableDetected).
Proof.
  rewrite extract_table_raw_lines.
  destruct (List.filter is_table_line (split LF text)) as [|k ks] eqn:Hks.
  - split; [|by intros e [= <-]]. split; [by intros [t Ht]|].
    intros (line & Hline). apply kept_lines in Hline. by rewrite Hks in Hline.
  - split; [|done]. split; [|by eexists].
    intros _. exists k. apply kept_lines. rewrite Hks. by left.
Qed.

Lemma split_cells_length line :
  Substring "|" line -> 2 <= length (split_cells line).
Proof.
  intros H. unfold split_cells. rewrite length_map. by apply split_length_ge2.
Qed.

Lemma split_cells_Tidy line : ~ Substring nl line -> Forall Tidy (split_cells line).
Proof.
  intros Hnl. unfold split_cells. apply Forall_map, Forall_forall.
  intros piece Hpiece. repeat split.
  - apply strip_idem.
  - intros H. apply (split_no_sep _ _ _ Hpiece).
    eapply Substring_trans; [done | apply strip_Substring].
  - intros H. apply Hnl.
    eapply Substring_trans; [done|].
    eapply Substring_trans; [apply strip_Substring|].
    by apply (split_Substring "|"%char).
Qed.

Lemma kept_line_row text line :
  In line (List.filter is_table_line (split LF text)) ->
  2 <= length (split_cells line) /\ Forall Tidy (split_cells line).
Proof.
  intros [Hline [Hbar _]]%kept_lines. split.
  - by apply split_cells_length.
  - apply split_cells_Tidy. by apply (split_no_sep LF text).
Qed.

(** X2: in a table that [extract_table] returns, the header row and every
    data row have at least two cells, and every cell is trimmed and holds
    neither the delimiter nor a line break. *)
Theorem extract_table_rows_are_tidy (text : string) (t : Table) :
  extract_table text = Ok t ->
  Forall (fun row => 2 <= length row /\ Forall Tidy row) (headers t :: rows t).
Proof.
  rewrite extract_table_raw_lines.
  pose proof (kept_line_row text) as Hrow.
  destruct (List.filter is_table_line (split LF text)) as [|k ks]; [done|].
  intros [= <-]. cbn [headers rows].
  change (split_cells k :: map split_cells ks) with (map split_cells (k :: ks)).
  apply Forall_map, Forall_forall. intros line Hline.
  by apply Hrow, list_elem_of_In.
Qed.

Lemma extract_table_margins pre text post :
  Blank pre -> Blank post ->
  extract_table (pre +:+ text +:+ post) = extract_table text.
Proof.
  intros Hpre Hpost. rewrite !extract_table_raw_lines.
  apply table_of_lines_cells.
  change (cells_of_lines (split LF (pre +:+ text +:+ post))
          = cells_of_lines (split LF text)).
  by rewrite cells_of_lines_front, cells_of_lines_back.
Qed.

(** X3: whitespace around the text, blank lines included, does not change
    what [extract_table] returns. *)
Theorem extract_table_ignores_margins (pre text post : string) :
  Blank pre -> Blank post ->
  extract_table (pre +:+ text +:+ post) = extract_table text.
Proof. apply extract_table_margins. Qed.

Lemma render_row_no_nl cells :
  Forall Tidy cells -> ~ Substring nl (render_row cells).
Proof.
  unfold render_row. induction cells as [|c [|d cells] IH]; intros Hall.
  - by apply contains_false.
  - by apply Forall_cons in Hall as [(_ & _ & Hc) _].
  - apply Forall_cons in Hall as [(_ & _ & Hc) Hall].
    change (String.concat " | " (c :: d :: cells))
      with (c +:+ " | " +:+ String.concat " | " (d :: cells)).
    unfold nl. rewrite !Substring_char_app. intros [H|[H|H]]; [done| |by apply IH].
    by apply contains_spec in H.
Qed.

Lemma render_row_bar cells : 2 <= length cells -> Substring "|" (render_row cells).
Proof.
  destruct cells as [|c [|d cells]]; cbn [length]; [lia..|]. intros _.
  exists (c +:+ " "), (" " +:+ String.concat " | " (d :: cells)).
  unfold render_row. by rewrite !sapp_assoc.
Qed.

Lemma Renderable_Retained cells : Renderable cells -> Retained (render_row cells).
Proof.
  intros (Hlen & _ & Hc & Hs). split; [by apply render_row_bar|].
  by rewrite !Substring_lower_Mentions.
Qed.

Lemma split_cells_render_from w c cells :
  Blank w -> Forall Tidy (c :: cells) ->
  map strip (split "|"%char (w +:+ String.concat " | " (c :: cells))) = c :: cells.
Proof.
  revert w c. induction cells as [|d cells IH]; intros w c Hw Hall.
  - apply Forall_cons in Hall as [(Hc & Hbar & _) _]. cbn [String.concat].
    rewrite split_single.
    + cbn. by rewrite strip_app_Blank_l, Hc.
    + rewrite Substring_char_app. intros [H|H]; [|done].
      by apply (Blank_no_ink "|" w).
  - apply Forall_cons in Hall as [(Hc & Hbar & _) Hall].
    change (String.concat " | " (c :: d :: cells))
      with (c +:+ " | " +:+ String.concat " | " (d :: cells)).
    assert (w +:+ c +:+ " | " +:+ String.concat " | " (d :: cells)
            = (w +:+ c +:+ " ")
              +:+ String "|"%char (" " +:+ String.concat " | " (d :: cells))) as ->
      by by rewrite !sapp_assoc.
    assert (Blank " ") as Hsp by (repeat constructor).
    rewrite split_app_sep.
    + cbn [map]. rewrite (IH " " d Hsp Hall).
      by rewrite strip_app_Blank_l, strip_app_Blank_r, Hc.
    + rewrite !Substring_char_app. intros [H|[H|H]]; [|done|].
      * by apply (Blank_no_ink "|" w).
      * by apply (Blank_no_ink "|" " ").
Qed.

Lemma split_cells_render cells :
  2 <= length cells -> Forall Tidy cells -> split_cells (render_row cells) = cells.
Proof.
  destruct cells as [|c cells]; cbn [length]; [lia|]. intros _ Hall.
  apply (split_cells_render_from "" c cells); [constructor | done].
Qed.

Lemma filter_all {A} (f : A -> bool) l :
  Forall (fun x => f x = true) l -> List.filter f l = l.
Proof. induction 1 as [|x l Hx _ IH]; [done|]. cbn. by rewrite Hx, IH. Qed.

Lemma extract_table_of_render header body :
  Forall Renderable (header :: body) ->
  extract_table (render_table (header :: body))
  = Ok {| headers := header; rows := body |}.
Proof.
  intros Hall. rewrite extract_table_raw_lines. unfold render_table, nl.
  cbn [map]. rewrite split_concat.
  - rewrite filter_all.
    + apply Forall_cons in Hall as [(Hlen & Htidy & _) Hbody]. cbn.
      rewrite split_cells_render by done. do 2 f_equal.
      induction Hbody as [|r body (Hr & Hrt & _) _ IH]; [done|].
      cbn. by rewrite split_cells_render, IH.
    + change (Forall (fun x => is_table_line x = true)
                (map render_row (header :: body))).
      apply Forall_map. eapply Forall_impl; [exact Hall|].
      intros r Hr. by apply is_table_line_spec, Renderable_Retained.
  - change (Forall (fun x => ~ Substring (String LF "") x)
              (map render_row (header :: body))).
    apply Forall_map. eapply Forall_impl; [exact Hall|].
    intros r (_ & Hr & _). by apply render_row_no_nl.
Qed.

(** X4: a pipe table written out as text (cells joined by " | ", rows by
    line breaks) is read back cell for cell, provided every row has at
    least two trimmed cells free of the delimiter and of line breaks, and
    no row mentions "customize" or "spreadsheet". *)
Theorem extract_table_reads_back (header : list string) (body : list (list string)) :
  Forall Renderable (header :: body) ->
  extract_table (render_table (header :: body))
  = Ok {| headers := header; rows := body |}.
Proof. apply extract_table_of_render. Qed.

End MoreExtractorFacts.

(** ** More on the chat handler (app.py, lines 116-158) *)

Section MoreChatFacts.
Import Str.

(** X5: with a non-blank input and the connectivity probe failing with an
    OSError, [chat] answers "Network error. Please check your connection."
    and leaves the world as it was: nothing is appended and the gateway is
    not called. *)
Theorem chat_network_down E data w s msg :
  data !! "user_input" = Some (JString s) ->
  ~ Blank s ->
  create_connection E = Raise (OSError msg) ->
  chat E data w
  = (Ok {| response := "Network error. Please check your connection.";
           table := None |}, w).
Proof.
  intros Hdata Hs Hnet. run_handler. rewrite Hdata; cbn.
  destruct (String.eqb_spec (strip s) "") as [Hu|_].
  { by apply strip_empty_iff in Hu. }
  by rewrite Hnet.
Qed.

(** X6: a chat turn the gateway answers appends exactly two turns, the
    trimmed input and then the trimmed response, each followed by a line
    break; the gateway is called once, with a history that already ends
    with the new user turn and with the trimmed input as the message; the
    disk is not touched. *)
Theorem chat_exchange E data w s text :
  data !! "user_input" = Some (JString s) ->
  ~ Blank s ->
  create_connection E = Ok tt ->
  send_message E (conversation_history w ++ [mkTurn user [strip s +:+ nl]])
    (strip s) = Ok text ->
  conversation_history (snd (chat E data w))
  = conversation_history w
    ++ [mkTurn user [strip s +:+ nl]; mkTurn model [strip text +:+ nl]]
  /\ files (snd (chat E data w)) = files w
  /\ dirs (snd (chat E data w)) = dirs w
  /\ exists evs,
       trace (snd (chat E data w))
       = trace w
         ++ CallGateway (conversation_history w ++ [mkTurn user [strip s +:+ nl]])
              (strip s) :: evs
       /\ Forall (fun ev => is_gateway_call ev = false) evs.
Proof.
  intros Hdata Hs Hnet Hsend.
  rewrite (chat_answered E data w s text Hdata Hs Hnet Hsend). cbn zeta.
  destruct (wants_table (strip s) (strip text)); cbn;
    (split; [done|]); (split; [done|]); (split; [done|]);
    eexists; (split; [reflexivity|]); by repeat constructor.
Qed.

(** X7: on a chat turn the gateway answers, the payload carries the trimmed
    response, and it carries a table exactly when the trigger holds and
    [extract_table] returns one for the response; that table is the one
    returned. *)
Theorem chat_table_payload E data w s text :
  data !! "user_input" = Some (JString s) ->
  ~ Blank s ->
  create_connection E = Ok tt ->
  send_message E (conversation_history w ++ [mkTurn user [strip s +:+ nl]])
    (strip s) = Ok text ->
  exists p,
    fst (chat E data w) = Ok p
    /\ response p = strip text
    /\ (forall t,
          table p = Some t
          <-> Triggered s text /\ extract_table (strip text) = Ok t).
Proof.
  intros Hdata Hs Hnet Hsend.
  rewrite (chat_answered E data w s text Hdata Hs Hnet Hsend). cbn zeta.
  pose proof (Triggered_strip s text) as Hts.
  destruct (wants_table (strip s) (strip text)) eqn:Hwants.
  - apply wants_table_spec in Hwants.
    destruct (extract_table (strip text)) as [t0|e]; cbn;
      eexists; (split; [reflexivity|]); (split; [reflexivity|]); cbn.
    + intros t. rewrite <- Hts. split; [by intros [= ->] | by intros [_ [= ->]]].
    + intros t. split; [done | by intros [_ ?]].
  - apply wants_table_false in Hwants. cbn.
    eexists. split; [reflexivity|]. split; [reflexivity|]. cbn.
    intros t. rewrite <- Hts. split; [done | by intros [? _]].
Qed.

(** X8: when the gateway raises on a chat turn, [chat] answers "Error: "
    followed by the exception's text; the user turn appended before the
    call stays in the store, no model turn follows it, and the disk is
    not touched. *)
Theorem chat_gateway_error E data w s e :
  data !! "user_input" = Some (JString s) ->
  ~ Blank s ->
  create_connection E = Ok tt ->
  send_message E (conversation_history w ++ [mkTurn user [strip s +:+ nl]])
    (strip s) = Raise e ->
  fst (chat E data w)
  = Ok {| response := "Error: " +:+ str_exn e; table := None |}
  /\ conversation_history (snd (chat E data w))
     = conversation_history w ++ [mkTurn user [strip s +:+ nl]]
  /\ files (snd (chat E data w)) = files w
  /\ dirs (snd (chat E data w)) = dirs w.
Proof.
  intros Hdata Hs Hnet Hsend.
  by rewrite (chat_gateway_raises E data w s e Hdata Hs Hnet Hsend).
Qed.

(** X9: a "user_input" that is not a JSON string makes [chat] raise an
    AttributeError from line 121, before the [try]: the exception reaches
    the framework and the world is left as it was. *)
Theorem chat_non_string_input E data w v :
  data !! "user_input" = Some v ->
  (forall s, v <> JString s) ->
  exists msg, chat E data w = (Raise (AttributeError msg), w).
Proof.
  intros Hdata Hv. run_handler. rewrite Hdata; cbn.
  destruct v as [s| | |]; [by destruct (Hv s) | eauto..].
Qed.

(** X10: when "user_input" is a string or is missing, and the probe either
    connects or fails with an OSError, [chat] returns a payload: no
    exception of the gateway or of the table extractor reaches the
    framework. *)
Theorem chat_always_answers E data w :
  (data !! "user_input" = None \/ exists s, data !! "user_input" = Some (JString s)) ->
  (create_connection E = Ok tt \/ exists msg, create_connection E = Raise (OSError msg)) ->
  exists p, fst (chat E data w) = Ok p.
Proof.
  intros Hdata Hnet. run_handler.
  destruct Hdata as [->|[s ->]], Hnet as [->|[msg ->]]; cbn;
    repeat (case_match; cbn in *; simplify_eq); eauto.
Qed.

(** X11: [chat] never touches the disk: whatever the request and the
    collaborators' answers, the files and directories are as before. *)
Theorem chat_leaves_disk E data w :
  files (snd (chat E data w)) = files w /\ dirs (snd (chat E data w)) = dirs w.
Proof.
  run_handler. by repeat (case_match; cbn in *; simplify_eq).
Qed.

End MoreChatFacts.

(** ** More on the upload handler (app.py, lines 89-104 and 161-204) *)

Section MoreUploadFacts.
Import Str.

(** X12: an upload request without a "file" part is answered "No file part
    in the request." and one whose file has an empty name "No file
    selected."; either way the world is left as it was. *)
Theorem upload_without_file E request_files w :
  (request_files !! "file" = None ->
   upload_file E request_files w
   = (Ok {| response := "No file part in the request."; table := None |}, w))
  /\ (forall file,
        request_files !! "file" = Some file ->
        filename file = "" ->
        upload_file E request_files w
        = (Ok {| response := "No file selected."; table := None |}, w)).
Proof.
  split.
  - intros Hfile. unfold upload_file. by rewrite Hfile.
  - intros file Hfile Hname. unfold upload_file. by rewrite Hfile, Hname.
Qed.

Lemma rcut_Some sep s h t :
  rcut sep s = Some (h, t) ->
  s = h +:+ String sep t /\ ~ Substring (String sep "") t.
Proof.
  revert h. induction s as [|c s IH]; intros h; [done|]. cbn [rcut].
  destruct (rcut sep s) as [[h' t']|] eqn:Hcut.
  - intros [= <- <-]. destruct (IH h' eq_refl) as [-> Hno].
    by rewrite sapp_cons.
  - destruct (Ascii.eqb_spec c sep) as [->|_]; [|done].
    intros [= <- <-]. split; [done|].
    intros Hsub. clear IH. revert Hcut Hsub. generalize s. clear.
    intros s. induction s as [|d s IH]; intros Hcut Hsub.
    + destruct Hsub as (pre & post & H). destruct pre; discriminate.
    + cbn [rcut] in Hcut. destruct (rcut sep s) as [[? ?]|]; [done|].
      destruct (Ascii.eqb_spec d sep) as [->|Hne]; [done|].
      apply Substring_char_cons in Hsub as [->|Hsub]; [done | by apply IH].
Qed.

(** X13: [allowed_file] accepts exactly the names whose text after the last
    dot is "pdf" or "docx" once lower-cased. *)
Theorem allowed_file_iff (name : string) :
  allowed_file name = true
  <-> exists stem ext,
        name = stem +:+ "." +:+ ext
        /\ ~ Substring "." ext
        /\ lower ext ∈ ALLOWED_EXTENSIONS.
Proof.
  split.
  - unfold allowed_file, rsplit1. intros [_ H]%andb_true_iff.
    destruct (rcut "."%char name) as [[h t]|] eqn:Hcut; [|done].
    apply rcut_Some in Hcut as [-> Hno]. cbn in H.
    apply bool_decide_eq_true_1 in H. by exists h, t.
  - intros (stem & ext & -> & Hno & Hext).
    rewrite allowed_file_spec by done. by apply bool_decide_eq_true_2.
Qed.

(** X14: an upload whose file name holds no dot is answered "Invalid file
    type. Only PDF and DOCX are allowed." and the world is left as it
    was. *)
Theorem upload_rejects_dotless_name E request_files w file :
  request_files !! "file" = Some file ->
  filename file <> "" ->
  ~ Substring "." (filename file) ->
  upload_file E request_files w
  = (Ok {| response := "Invalid file type. Only PDF and DOCX are allowed.";
           table := None |}, w).
Proof.
  intros Hfile Hname%String.eqb_neq Hdot%contains_false.
  unfold upload_file, allowed_file. by rewrite Hfile, Hname, Hdot, andb_false_r.
Qed.

Lemma concat_empty_cons x xs :
  String.concat "" (x :: xs) = x +:+ String.concat "" xs.
Proof. destruct xs; [by rewrite sapp_nil_r | done]. Qed.

Lemma fold_left_append pages acc :
  fold_left String.append pages acc = acc +:+ String.concat "" pages.
Proof.
  revert acc. induction pages as [|p pages IH]; intros acc.
  - by rewrite sapp_nil_r.
  - cbn [fold_left]. by rewrite IH, concat_empty_cons, sapp_assoc.
Qed.

Ltac run_accepted Hfile Hname Hallowed :=
  unfold upload_file, truthy, scratch_path in *; rewrite Hfile, Hallowed;
  apply String.eqb_neq in Hname; rewrite Hname; run_handler;
  set (file_path := path_join _ (secure_filename _ _)) in *;
  assert (forall fs : gset string, bool_decide (file_path ∈ {[file_path]} ∪ fs) = true)
    as Hsaved
    by (intros fs; apply bool_decide_eq_true_2, elem_of_union; left;
        by apply elem_of_singleton);
  assert (forall fs : gset string, file_path ∉ ({[file_path]} ∪ fs) ∖ {[file_path]})
    as Hgone
    by (intros fs [_ Hnot]%elem_of_difference; apply Hnot;
        by apply elem_of_singleton);
  assert (forall fs : gset string, file_path ∈ {[file_path]} ∪ fs) as Hthere'
    by (intros fs; apply elem_of_union; left; by apply elem_of_singleton);
  destruct (bool_decide (path_join (getcwd _) "uploads" ∈ files _)
            || bool_decide (path_join (getcwd _) "uploads" ∈ dirs _)) eqn:Hthere;
  cbn; rewrite ?Hthere; cbn.

(** X15: an accepted upload whose sanitised name ends in ".pdf", whose pages
    are read and whose text the gateway answers: the text sent is the
    pages' texts put end to end; the saved file is removed; the store gains
    the user turn with that text and the model turn with the trimmed
    response; the answer is the trimmed response without a table. *)
Theorem upload_pdf_answered E request_files w file pages text :
  request_files !! "file" = Some file ->
  filename file <> "" ->
  allowed_file (filename file) = true ->
  endswith ".pdf" (secure_filename E (filename file)) = true ->
  pdf_pages E (scratch_path E (filename file)) = Ok pages ->
  send_message E
    (conversation_history w ++ [mkTurn user [String.concat "" pages +:+ nl]])
    (String.concat "" pages) = Ok text ->
  fst (upload_file E request_files w)
  = Ok {| response := strip text; table := None |}
  /\ conversation_history (snd (upload_file E request_files w))
     = conversation_history w
       ++ [mkTurn user [String.concat "" pages +:+ nl];
           mkTurn model [strip text +:+ nl]]
  /\ (scratch_path E (filename file) ∉ files (snd (upload_file E request_files w)))
  /\ trace (snd (upload_file E request_files w))
     = trace w
       ++ [CallTextExtractor (scratch_path E (filename file));
           CallGateway
             (conversation_history w ++ [mkTurn user [String.concat "" pages +:+ nl]])
             (String.concat "" pages)].
Proof.
  intros Hfile Hname Hallowed Hpdf Hpages Hsend.
  run_accepted Hfile Hname Hallowed;
    rewrite Hpdf; cbn; rewrite Hpages; cbn; rewrite Hsaved; cbn;
    rewrite fold_left_append, sapp_nil_l, Hsend; cbn;
    rewrite <- !app_assoc; cbn; repeat split; apply Hgone.
Qed.

(** X16: the same for a sanitised name that ends in ".docx": the text sent
    is the paragraphs' texts joined by line breaks. *)
Theorem upload_docx_answered E request_files w file paragraphs text :
  request_files !! "file" = Some file ->
  filename file <> "" ->
  allowed_file (filename file) = true ->
  endswith ".pdf" (secure_filename E (filename file)) = false ->
  endswith ".docx" (secure_filename E (filename file)) = true ->
  docx_paragraphs E (scratch_path E (filename file)) = Ok paragraphs ->
  send_message E
    (conversation_history w ++ [mkTurn user [String.concat nl paragraphs +:+ nl]])
    (String.concat nl paragraphs) = Ok text ->
  fst (upload_file E request_files w)
  = Ok {| response := strip text; table := None |}
  /\ conversation_history (snd (upload_file E request_files w))
     = conversation_history w
       ++ [mkTurn user [String.concat nl paragraphs +:+ nl];
           mkTurn model [strip text +:+ nl]]
  /\ (scratch_path E (filename file) ∉ files (snd (upload_file E request_files w)))
  /\ trace (snd (upload_file E request_files w))
     = trace w
       ++ [CallTextExtractor (scratch_path E (filename file));
           CallGateway
             (conversation_history w
                ++ [mkTurn user [String.concat nl paragraphs +:+ nl]])
             (String.concat nl paragraphs)].
Proof.
  intros Hfile Hname Hallowed Hpdf Hdocx Hpars Hsend.
  run_accepted Hfile Hname Hallowed;
    rewrite Hpdf, Hdocx; cbn; rewrite Hpars; cbn; rewrite Hsaved; cbn;
    rewrite Hsend; cbn;
    rewrite <- !app_assoc; cbn; repeat split; apply Hgone.
Qed.

(** X17: when the text of an accepted PDF is read but the gateway raises,
    [upload_file] answers "Error processing file: " followed by the
    exception's text; the saved file has been removed, and the user turn
    appended before the call stays in the store without a reply. *)
Theorem upload_gateway_error E request_files w file pages e :
  request_files !! "file" = Some file ->
  filename file <> "" ->
  allowed_file (filename file) = true ->
  endswith ".pdf" (secure_filename E (filename file)) = true ->
  pdf_pages E (scratch_path E (filename file)) = Ok pages ->
  send_message E
    (conversation_history w ++ [mkTurn user [String.concat "" pages +:+ nl]])
    (String.concat "" pages) = Raise e ->
  fst (upload_file E request_files w)
  = Ok {| response := "Error processing file: " +:+ str_exn e; table := None |}
  /\ conversation_history (snd (upload_file E request_files w))
     = conversation_history w ++ [mkTurn user [String.concat "" pages +:+ nl]]
  /\ (scratch_path E (filename file) ∉ files (snd (upload_file E request_files w))).
Proof.
  intros Hfile Hname Hallowed Hpdf Hpages Hsend.
  run_accepted Hfile Hname Hallowed;
    rewrite Hpdf; cbn; rewrite Hpages; cbn; rewrite Hsaved; cbn;
    rewrite fold_left_append, sapp_nil_l, Hsend; cbn;
    repeat split; apply Hgone.
Qed.

(** X18: when reading the text of an accepted upload raises, whether in the
    PDF branch or in the DOCX branch, [upload_file] answers "Error
    processing file: " followed by the exception's text; the store is
    unchanged, the gateway is not called, and the saved file is still on
    disk. *)
Theorem upload_extraction_error E request_files w file e :
  request_files !! "file" = Some file ->
  filename file <> "" ->
  allowed_file (filename file) = true ->
  (endswith ".pdf" (secure_filename E (filename file)) = true
   /\ pdf_pages E (scratch_path E (filename file)) = Raise e)
  \/ (endswith ".pdf" (secure_filename E (filename file)) = false
      /\ endswith ".docx" (secure_filename E (filename file)) = true
      /\ docx_paragraphs E (scratch_path E (filename file)) = Raise e) ->
  fst (upload_file E request_files w)
  = Ok {| response := "Error processing file: " +:+ str_exn e; table := None |}
  /\ conversation_history (snd (upload_file E request_files w))
     = conversation_history w
  /\ trace (snd (upload_file E request_files w))
     = trace w ++ [CallTextExtractor (scratch_path E (filename file))]
  /\ scratch_path E (filename file) ∈ files (snd (upload_file E request_files w)).
Proof.
  intros Hfile Hname Hallowed Hread.
  run_accepted Hfile Hname Hallowed;
    destruct Hread as [[Hpdf Hraise]|(Hpdf & Hdocx & Hraise)];
    rewrite Hpdf, ?Hdocx; cbn; rewrite Hraise; cbn;
    repeat split; apply Hthere'.
Qed.

Ltac no_table_call :=
  first
    [ exists []; split; [by rewrite app_nil_r | constructor]
    | eexists [_]; split; [reflexivity | by repeat constructor]
    | eexists [_; _]; split; [by rewrite <- app_assoc | by repeat constructor] ].

(** X19: [upload_file] never applies the table extractor: whatever the
    request and the collaborators' answers, a payload it returns has no
    table and [extract_table] is not called. *)
Theorem upload_never_tabulates E request_files w :
  (forall p, fst (upload_file E request_files w) = Ok p -> table p = None)
  /\ exists evs,
       trace (snd (upload_file E request_files w)) = trace w ++ evs
       /\ Forall (fun ev => is_extract_table_call ev = false) evs.
Proof.
  split.
  - intros p. run_handler.
    repeat (case_match; cbn in *; simplify_eq); by intros [= <-].
  - run_handler.
    repeat (case_match; cbn in *; simplify_eq); cbn; no_table_call.
Qed.

(** X20: [upload_file] changes no file on disk other than the one at the
    scratch path of the uploaded name. *)
Theorem upload_only_touches_scratch E request_files w file p :
  request_files !! "file" = Some file ->
  p <> scratch_path E (filename file) ->
  p ∈ files (snd (upload_file E request_files w)) <-> p ∈ files w.
Proof.
  intros Hfile Hp. unfold upload_file, scratch_path in *. rewrite Hfile.
  run_handler.
  set (file_path := path_join _ (secure_filename _ _)) in *.
  repeat (case_match; cbn in *; simplify_eq); cbn;
    rewrite ?elem_of_difference, ?elem_of_union, ?elem_of_singleton; tauto.
Qed.

End MoreUploadFacts.

(** ** More on the server as a whole *)

Section MoreStoreFacts.
Import Str.

Ltac one_call :=
  first
    [ exists []; split; [by rewrite app_nil_r|]; split; [cbn; lia|];
      intros h m Hin; by apply elem_of_nil in Hin
    | eexists [_]; split; [reflexivity|]; split; [cbn; lia|];
      intros h m Hin; apply list_elem_of_singleton in Hin; by simplify_eq
    | eexists [_; _]; split; [by rewrite <- app_assoc|]; split; [cbn; lia|];
      intros h m Hin; apply elem_of_cons in Hin as [Hin|Hin];
      [|apply list_elem_of_singleton in Hin]; by simplify_eq ].

(** X21: one handler invocation calls the gateway at most once, and the
    history it hands over is the store as it was before the request
    followed by a user turn holding the very message it then sends. *)
Theorem gateway_gets_the_message_twice E req w :
  exists evs,
    trace (after E req w) = trace w ++ evs
    /\ gateway_calls evs <= 1
    /\ forall h m,
         CallGateway h m ∈ evs ->
         h = conversation_history w ++ [mkTurn user [m +:+ nl]].
Proof.
  unfold after, handle, index, gateway_calls.
  destruct req as [|data|request_files]; run_handler.
  - one_call.
  - repeat (case_match; cbn in *; simplify_eq); cbn; one_call.
  - repeat (case_match; cbn in *; simplify_eq); cbn; one_call.
Qed.

Lemma after_users_calls E req w :
  user_turns (conversation_history (after E req w)) + gateway_calls (trace w)
  = user_turns (conversation_history w) + gateway_calls (trace (after E req w))
  /\ model_turns (conversation_history (after E req w)) + gateway_calls (trace w)
     <= model_turns (conversation_history w) + gateway_calls (trace (after E req w)).
Proof.
  unfold after, handle, index.
  destruct req as [|data|request_files]; run_handler; [done|..];
    repeat (case_match; cbn in *; simplify_eq); cbn;
    unfold user_turns, model_turns, gateway_calls;
    rewrite ?List.filter_app, ?length_app; cbn; lia.
Qed.

(** X22: over any run of requests the store gains exactly one user turn per
    gateway call (a user turn is appended only to be sent, and is sent
    whenever it is appended) and at most one model turn per gateway
    call. *)
Theorem one_user_turn_per_gateway_call (reqs : list (Env * Request)) (w : World) :
  user_turns (conversation_history (serve reqs w)) + gateway_calls (trace w)
  = user_turns (conversation_history w) + gateway_calls (trace (serve reqs w))
  /\ model_turns (conversation_history (serve reqs w)) + gateway_calls (trace w)
     <= model_turns (conversation_history w) + gateway_calls (trace (serve reqs w)).
Proof.
  revert w. induction reqs as [|[E req] reqs IH]; intros w; [done|].
  cbn [serve]. specialize (IH (after E req w)).
  pose proof (after_users_calls E req w). lia.
Qed.

End MoreStoreFacts.

(** ** The further facts at sample requests *)

Section MoreSamples.
Import Str.

Lemma extract_table_rows_are_tidy_witness :
  extract_table (" Day|Room " +:+ nl +:+ "Mon | 12 |" +:+ nl)
  = Ok {| headers := ["Day"; "Room"]; rows := [["Mon"; "12"; ""]] |}
  /\ Forall (fun row => 2 <= length row /\ Forall Tidy row)
       [["Day"; "Room"]; ["Mon"; "12"; ""]].
Proof.
  split; [reflexivity|].
  exact (extract_table_rows_are_tidy
           (" Day|Room " +:+ nl +:+ "Mon | 12 |" +:+ nl)
           {| headers := ["Day"; "Room"]; rows := [["Mon"; "12"; ""]] |} eq_refl).
Defined.

Lemma extract_table_ignores_margins_witness :
  Blank (nl +:+ "  ") /\ Blank (" " +:+ nl +:+ nl)
  /\ extract_table ((nl +:+ "  ") +:+ "a | b" +:+ (" " +:+ nl +:+ nl))
     = extract_table "a | b".
Proof.
  assert (Blank (nl +:+ "  ")) as Hpre by (repeat constructor).
  assert (Blank (" " +:+ nl +:+ nl)) as Hpost by (repeat constructor).
  split; [exact Hpre|]. split; [exact Hpost|].
  exact (extract_table_ignores_margins _ "a | b" _ Hpre Hpost).
Defined.

Lemma Tidy_by_evaluation cell :
  strip cell = cell -> contains "|" cell = false -> contains nl cell = false ->
  Tidy cell.
Proof. intros ? ?%contains_false ?%contains_false. by repeat split. Qed.

Lemma not_Mentions_by_evaluation keyword s :
  contains keyword (lower s) = false -> ~ Mentions keyword s.
Proof. intros H. rewrite <- contains_lower_spec. by rewrite H. Qed.

Lemma extract_table_reads_back_witness :
  Forall Renderable [["Day"; "Room"; ""]; ["Mon"; "Lab 2"; "x"]]
  /\ render_table [["Day"; "Room"; ""]; ["Mon"; "Lab 2"; "x"]]
     = "Day | Room | " +:+ nl +:+ "Mon | Lab 2 | x"
  /\ extract_table ("Day | Room | " +:+ nl +:+ "Mon | Lab 2 | x")
     = Ok {| headers := ["Day"; "Room"; ""]; rows := [["Mon"; "Lab 2"; "x"]] |}.
Proof.
  assert (Forall Renderable [["Day"; "Room"; ""]; ["Mon"; "Lab 2"; "x"]]) as Hall.
  { repeat constructor; try (by apply Tidy_by_evaluation);
      by apply not_Mentions_by_evaluation. }
  split; [exact Hall|]. split; [reflexivity|].
  exact (extract_table_reads_back _ _ Hall).
Defined.

Lemma chat_network_down_witness :
  let E := sample_env (Raise (OSError "Network is unreachable")) (Ok "unused") (Ok []) in
  ~ Blank "Plan a lesson"
  /\ chat E (chat_body "Plan a lesson") one_turn_in
     = (Ok {| response := "Network error. Please check your connection.";
              table := None |}, one_turn_in).
Proof.
  cbn zeta.
  assert (~ Blank "Plan a lesson") as Hs.
  { intros H%strip_empty_iff. discriminate. }
  split; [exact Hs|].
  exact (chat_network_down
           (sample_env (Raise (OSError "Network is unreachable")) (Ok "unused") (Ok []))
           (chat_body "Plan a lesson") one_turn_in _ _ eq_refl Hs eq_refl).
Defined.

Lemma chat_exchange_witness :
  let E := sample_env (Ok tt) (Ok " Here is a plan. ") (Ok []) in
  ~ Blank " Plan a lesson "
  /\ conversation_history (snd (chat E (chat_body " Plan a lesson ") one_turn_in))
     = conversation_history one_turn_in
       ++ [mkTurn user ["Plan a lesson" +:+ nl];
           mkTurn model ["Here is a plan." +:+ nl]].
Proof.
  cbn zeta.
  assert (~ Blank " Plan a lesson ") as Hs.
  { intros H%strip_empty_iff. discriminate. }
  split; [exact Hs|].
  exact (proj1 (chat_exchange
                  (sample_env (Ok tt) (Ok " Here is a plan. ") (Ok []))
                  (chat_body " Plan a lesson ") one_turn_in _ _
                  eq_refl Hs eq_refl eq_refl)).
Defined.

Lemma chat_table_payload_witness :
  let E := sample_env (Ok tt) (Ok ("In tabular form:" +:+ nl +:+ "a | b")) (Ok []) in
  ~ Blank "Compare a and b"
  /\ exists p,
       fst (chat E (chat_body "Compare a and b") boot) = Ok p
       /\ response p = "In tabular form:" +:+ nl +:+ "a | b"
       /\ table p = Some {| headers := ["a"; "b"]; rows := [] |}.
Proof.
  cbn zeta.
  assert (~ Blank "Compare a and b") as Hs.
  { intros H%strip_empty_iff. discriminate. }
  split; [exact Hs|].
  destruct (chat_table_payload
              (sample_env (Ok tt) (Ok ("In tabular form:" +:+ nl +:+ "a | b")) (Ok []))
              (chat_body "Compare a and b") boot _ _ eq_refl Hs eq_refl eq_refl)
    as (p & Hp & Hresponse & Htable).
  exists p. split; [exact Hp|]. split; [exact Hresponse|].
  apply Htable. split; [|reflexivity].
  right. right. exists "tabular". split; [reflexivity|].
  by exists "In ", (" form:" +:+ nl +:+ "a | b").
Defined.

Lemma chat_gateway_error_witness :
  let E := sample_env (Ok tt) (Raise (ExternalError "429 quota exceeded")) (Ok []) in
  ~ Blank "Hello"
  /\ fst (chat E (chat_body "Hello") one_turn_in)
     = Ok {| response := "Error: 429 quota exceeded"; table := None |}
  /\ conversation_history (snd (chat E (chat_body "Hello") one_turn_in))
     = conversation_history one_turn_in ++ [mkTurn user ["Hello" +:+ nl]].
Proof.
  cbn zeta.
  assert (~ Blank "Hello") as Hs.
  { intros H%strip_empty_iff. discriminate. }
  split; [exact Hs|].
  destruct (chat_gateway_error
              (sample_env (Ok tt) (Raise (ExternalError "429 quota exceeded")) (Ok []))
              (chat_body "Hello") one_turn_in _ _ eq_refl Hs eq_refl eq_refl)
    as (H1 & H2 & _).
  split; [exact H1 | exact H2].
Defined.

Lemma chat_non_string_input_witness :
  let E := sample_env (Ok tt) (Ok "unused") (Ok []) in
  let data : gmap string json := {[ "user_input" := JNumber 5 ]} in
  exists msg, chat E data one_turn_in = (Raise (AttributeError msg), one_turn_in).
Proof.
  cbn zeta.
  refine (chat_non_string_input (sample_env (Ok tt) (Ok "unused") (Ok []))
            {[ "user_input" := JNumber 5 ]} one_turn_in (JNumber 5) eq_refl _).
  intros s. discriminate.
Defined.

Lemma chat_always_answers_witness :
  let E := sample_env (Raise (OSError "Network is unreachable"))
             (Raise (ExternalError "unused")) (Ok []) in
  exists p, fst (chat E (chat_body "Hello") boot) = Ok p.
Proof.
  cbn zeta.
  refine (chat_always_answers
            (sample_env (Raise (OSError "Network is unreachable"))
               (Raise (ExternalError "unused")) (Ok []))
            (chat_body "Hello") boot _ _).
  - right. by exists "Hello".
  - right. by exists "Network is unreachable".
Defined.

Lemma upload_without_file_witness :
  let E := sample_env (Ok tt) (Ok "unused") (Ok []) in
  upload_file E ∅ one_turn_in
  = (Ok {| response := "No file part in the request."; table := None |}, one_turn_in)
  /\ upload_file E (upload_of "") one_turn_in
     = (Ok {| response := "No file selected."; table := None |}, one_turn_in).
Proof.
  cbn zeta. split.
  - exact (proj1 (upload_without_file (sample_env (Ok tt) (Ok "unused") (Ok []))
                    ∅ one_turn_in) eq_refl).
  - exact (proj2 (upload_without_file (sample_env (Ok tt) (Ok "unused") (Ok []))
                    (upload_of "") one_turn_in) _ eq_refl eq_refl).
Defined.

Lemma upload_rejects_dotless_name_witness :
  let E := sample_env (Ok tt) (Ok "unused") (Ok []) in
  ~ Substring "." "README"
  /\ upload_file E (upload_of "README") one_turn_in
     = (Ok {| response := "Invalid file type. Only PDF and DOCX are allowed.";
              table := None |}, one_turn_in).
Proof.
  cbn zeta.
  assert (~ Substring "." "README") as Hdot by (by apply contains_false).
  assert ("README" <> "") as Hname by discriminate.
  split; [exact Hdot|].
  exact (upload_rejects_dotless_name (sample_env (Ok tt) (Ok "unused") (Ok []))
           (upload_of "README") one_turn_in _ eq_refl Hname Hdot).
Defined.

Lemma upload_pdf_answered_witness :
  let E := sample_env (Ok tt) (Ok " A tabular summary: a | b ")
             (Ok ["Chapter 1"; " intro"]) in
  let after_upload := upload_file E (upload_of "notes.pdf") one_turn_in in
  fst after_upload = Ok {| response := "A tabular summary: a | b"; table := None |}
  /\ conversation_history (snd after_upload)
     = conversation_history one_turn_in
       ++ [mkTurn user ["Chapter 1 intro" +:+ nl];
           mkTurn model ["A tabular summary: a | b" +:+ nl]]
  /\ ("/srv/app/uploads/notes.pdf" ∉ files (snd after_upload)).
Proof.
  cbn zeta.
  assert ("notes.pdf" <> "") as Hname by discriminate.
  destruct (upload_pdf_answered
              (sample_env (Ok tt) (Ok " A tabular summary: a | b ")
                 (Ok ["Chapter 1"; " intro"]))
              (upload_of "notes.pdf") one_turn_in _ ["Chapter 1"; " intro"]
              " A tabular summary: a | b "
              eq_refl Hname eq_refl eq_refl eq_refl eq_refl)
    as (H1 & H2 & H3 & _).
  split; [exact H1|]. split; [exact H2 | exact H3].
Defined.

Lemma upload_docx_answered_witness :
  let E := sample_env (Ok tt) (Ok " Noted. ") (Ok ["Aims"; "Methods"]) in
  let after_upload := upload_file E (upload_of "plan.docx") boot in
  fst after_upload = Ok {| response := "Noted."; table := None |}
  /\ conversation_history (snd after_upload)
     = [mkTurn user [("Aims" +:+ nl +:+ "Methods") +:+ nl];
        mkTurn model ["Noted." +:+ nl]]
  /\ ("/srv/app/uploads/plan.docx" ∉ files (snd after_upload)).
Proof.
  cbn zeta.
  assert ("plan.docx" <> "") as Hname by discriminate.
  destruct (upload_docx_answered
              (sample_env (Ok tt) (Ok " Noted. ") (Ok ["Aims"; "Methods"]))
              (upload_of "plan.docx") boot _ ["Aims"; "Methods"] " Noted. "
              eq_refl Hname eq_refl eq_refl eq_refl eq_refl eq_refl)
    as (H1 & H2 & H3 & _).
  split; [exact H1|]. split; [exact H2 | exact H3].
Defined.

Lemma upload_gateway_error_witness :
  let E := sample_env (Ok tt) (Raise (ExternalError "429 quota exceeded"))
             (Ok ["Chapter 1"]) in
  let after_upload := upload_file E (upload_of "notes.pdf") boot in
  fst after_upload
  = Ok {| response := "Error processing file: 429 quota exceeded"; table := None |}
  /\ conversation_history (snd after_upload) = [mkTurn user ["Chapter 1" +:+ nl]]
  /\ ("/srv/app/uploads/notes.pdf" ∉ files (snd after_upload)).
Proof.
  cbn zeta.
  assert ("notes.pdf" <> "") as Hname by discriminate.
  exact (upload_gateway_error
           (sample_env (Ok tt) (Raise (ExternalError "429 quota exceeded"))
              (Ok ["Chapter 1"]))
           (upload_of "notes.pdf") boot _ ["Chapter 1"]
           (ExternalError "429 quota exceeded")
           eq_refl Hname eq_refl eq_refl eq_refl eq_refl).
Defined.

Lemma upload_extraction_error_witness :
  let E := sample_env (Ok tt) (Ok "unused")
             (Raise (ExternalError "File is not a zip file")) in
  let after_upload := upload_file E (upload_of "plan.docx") one_turn_in in
  fst after_upload
  = Ok {| response := "Error processing file: File is not a zip file";
          table := None |}
  /\ conversation_history (snd after_upload) = conversation_history one_turn_in
  /\ trace (snd after_upload) = [CallTextExtractor "/srv/app/uploads/plan.docx"]
  /\ "/srv/app/uploads/plan.docx" ∈ files (snd after_upload).
Proof.
  cbn zeta.
  assert ("plan.docx" <> "") as Hname by discriminate.
  refine (upload_extraction_error
            (sample_env (Ok tt) (Ok "unused")
               (Raise (ExternalError "File is not a zip file")))
            (upload_of "plan.docx") one_turn_in _
            (ExternalError "File is not a zip file")
            eq_refl Hname eq_refl _).
  right. by repeat split.
Defined.

Lemma upload_only_touches_scratch_witness :
  let E := sample_env (Ok tt) (Ok "Noted.") (Ok ["Chapter 1"]) in
  let w := mkWorld [] {[ "/srv/app/uploads/old.pdf"; "/srv/app/uploads/notes.pdf" ]}
             {[ "/srv/app/uploads" ]} [] in
  "/srv/app/uploads/old.pdf" <> scratch_path E "notes.pdf"
  /\ ("/srv/app/uploads/old.pdf" ∈ files (snd (upload_file E (upload_of "notes.pdf") w))
      <-> "/srv/app/uploads/old.pdf" ∈ files w).
Proof.
  cbn zeta.
  assert ("/srv/app/uploads/old.pdf"
          <> scratch_path (sample_env (Ok tt) (Ok "Noted.") (Ok ["Chapter 1"]))
               "notes.pdf") as Hp by discriminate.
  split; [exact Hp|].
  exact (upload_only_touches_scratch
           (sample_env (Ok tt) (Ok "Noted.") (Ok ["Chapter 1"]))
           (upload_of "notes.pdf")
           (mkWorld [] {[ "/srv/app/uploads/old.pdf"; "/srv/app/uploads/notes.pdf" ]}
              {[ "/srv/app/uploads" ]} [])
           _ _ eq_refl Hp).
Defined.

End MoreSamples.
